(** * Parachute sizing (gu-rocketry): the sizing engine and its two front ends

    Shallow embedding of
      - [parachute_gui.py]  : [compute_single], [compute_dual], [round_feet]
        and the numeric part of [ParachuteGUI._add_row];
      - [parachute_area.py] : the prompt-driven script, single and dual branch.

    The modules [Gui] and [Cli] model Python's [float] by the real numbers
    [R] with exact arithmetic: [math.sqrt] and [np.sqrt] are [sqrt],
    [math.pi] and [np.pi] are [PI], and the decimal literals of the source
    are the rationals they denote.  Rounding error, overflow, underflow and
    NaN of binary64 are outside that model; what is proved there is a
    statement in exact arithmetic.

    The module [Binary64] embeds [compute_single] and [compute_dual] a second
    time, over binary64 floating-point numbers, with the [ZeroDivisionError]
    of float division and the [ValueError] of [math.sqrt].  It evaluates the
    engine at inputs where the products underflow or overflow. *)

From Stdlib Require Import Reals Lra Lia ZArith String List Bool.
From Stdlib Require Import Zfloor.
From Stdlib Require PrimFloat.
Import ListNotations.

Open Scope R_scope.

(** ** Python built-ins used by the source *)

Module Py.

  (** Comparisons of floats, as booleans. *)
Definition leb (x y : R) : bool := if Rle_dec x y then true else false.
Definition ltb (x y : R) : bool := if Rlt_dec x y then true else false.
Definition geb (x y : R) : bool := leb y x.
Definition gtb (x y : R) : bool := ltb y x.

  (** [math.floor] and [math.ceil]: a float to an [int]. *)
Definition floor (x : R) : Z := Zfloor x.
Definition ceil (x : R) : Z := Zceil x.

  (** [round(x)] with one argument: the nearest [int], and the even one of
      the two when [x] lies half way between them. *)
Definition round (x : R) : Z :=
    let f := Zfloor x in
    let d := x - IZR f in
    if Rlt_dec d (1 / 2) then f
    else if Rlt_dec (1 / 2) d then (f + 1)%Z
    else if Z.even f then f else (f + 1)%Z.

  (** [round(x, ndigits)]: [x] rounded to [ndigits] decimal places. *)
Definition round_to (x : R) (ndigits : nat) : R :=
    IZR (round (x * 10 ^ ndigits)) / 10 ^ ndigits.

  (** [float(n)] for an [int] [n]. *)
Definition float (n : Z) : R := IZR n.

  (** What [raise] carries. *)
Inductive exception : Type :=
  | ValueError (msg : string).

  (** The outcome of a call: a returned value or a raised exception. *)
Inductive outcome (A : Type) : Type :=
  | Return (a : A)
  | Raise (e : exception).
Arguments Return {A} a.
Arguments Raise {A} e.

  (** [any(p(x) for x in xs)] *)
Definition any {A : Type} (p : A -> bool) (xs : list A) : bool := existsb p xs.

End Py.

(** ** parachute_gui.py *)

Module Gui.

Import Py.

Definition M2_TO_FT2 : R := 10.7639.
Definition M_TO_IN   : R := 39.3701.
Definition M_TO_FT   : R := 3.28084.

  (** [@dataclass class SingleResult] with its derived properties. *)
Module SingleResult.
Record t : Type := Build
      { S_total_m2 : R;
        D_total_m  : R }.
Definition S_total_ft2 (self : t) : R := S_total_m2 self * M2_TO_FT2.
Definition D_total_in  (self : t) : R := D_total_m self * M_TO_IN.
Definition D_total_ft  (self : t) : R := D_total_m self * M_TO_FT.
End SingleResult.

  (** [@dataclass class DualResult] with its derived properties. *)
Module DualResult.
Record t : Type := Build
      { S_total_m2  : R;
        D_total_m   : R;
        S_drogue_m2 : R;
        D_drogue_m  : R;
        S_main_m2   : R;
        D_main_m    : R }.
Definition S_total_ft2  (self : t) : R := S_total_m2 self * M2_TO_FT2.
Definition D_total_ft   (self : t) : R := D_total_m self * M_TO_FT.
Definition D_total_in   (self : t) : R := D_total_m self * M_TO_IN.
Definition S_drogue_ft2 (self : t) : R := S_drogue_m2 self * M2_TO_FT2.
Definition D_drogue_ft  (self : t) : R := D_drogue_m self * M_TO_FT.
Definition D_drogue_in  (self : t) : R := D_drogue_m self * M_TO_IN.
Definition S_main_ft2   (self : t) : R := S_main_m2 self * M2_TO_FT2.
Definition D_main_ft    (self : t) : R := D_main_m self * M_TO_FT.
Definition D_main_in    (self : t) : R := D_main_m self * M_TO_IN.
End DualResult.

  (** [compute_single(g, m, rho_air, Cd, V)] *)
Definition compute_single (g m rho_air Cd V : R) : outcome SingleResult.t :=
    if any (fun x => leb x 0) [g; m; rho_air; Cd; V] then
      Raise (ValueError "All inputs must be positive.")
    else
      let S_total := (2.0 * g * m) / (rho_air * Cd * V * V) in
      let D_total := sqrt (4.0 * S_total / PI) in
      Return (SingleResult.Build S_total D_total).

  (** [compute_dual(g, m, rho_air, Cd_drogue, Cd_main, V, drogue_fraction)] *)
Definition compute_dual (g m rho_air Cd_drogue Cd_main V drogue_fraction : R)
    : outcome DualResult.t :=
    if any (fun x => leb x 0) [g; m; rho_air; Cd_drogue; Cd_main; V] then
      Raise (ValueError "All inputs must be positive.")
    else if negb (leb 0.01 drogue_fraction && leb drogue_fraction 0.9) then
      Raise (ValueError "Drogue fraction should be in [0.01, 0.90].")
    else
      let Cd_avg := 0.5 * (Cd_drogue + Cd_main) in
      let S_total := (2.0 * g * m) / (rho_air * Cd_avg * V * V) in
      let D_total := sqrt (4.0 * S_total / PI) in
      let S_drogue := S_total * drogue_fraction in
      let S_main := S_total * (1.0 - drogue_fraction) in
      let D_drogue := sqrt (4.0 * S_drogue / PI) in
      let D_main := sqrt (4.0 * S_main / PI) in
      Return (DualResult.Build S_total D_total S_drogue D_drogue S_main D_main).

  (** The default of the keyword argument [drogue_fraction]. *)
Definition drogue_fraction_default : R := 0.20.

  (** [class FootRounding]: the four entries of the rounding combo box. *)
Module FootRounding.
Definition NONE    : string := "None".
Definition NEAREST : string := "Nearest whole ft".
Definition UP      : string := "Ceil (next ft)".
Definition DOWN    : string := "Floor (whole ft)".
End FootRounding.

  (** [round_feet(value_ft, mode)] *)
Definition round_feet (value_ft : R) (mode : string) : R :=
    if String.eqb mode FootRounding.NEAREST then float (round value_ft)
    else if String.eqb mode FootRounding.UP then float (ceil value_ft)
    else if String.eqb mode FootRounding.DOWN then float (floor value_ft)
    else value_ft.

  (** A diameter that is a whole number of feet. *)
Definition whole_foot (v : R) : Prop := exists z : Z, v = IZR z.

(** The four policies the rounding combo box offers. *)
Definition policies : list string :=
  [FootRounding.NONE; FootRounding.NEAREST; FootRounding.UP; FootRounding.DOWN].

(** The last cell of a table row, before it is turned into text:
      [DisplayFeet x] is [f"{x:.0f} ft"] and [DisplayInches n] is
      [f"< 1 ft (~ {n:.0f} in)"]. *)
Inductive rounded_display : Type :=
  | DisplayFeet (diam_ft_purchase : R)
  | DisplayInches (inches_purchase : Z).

  (** The six cells of one table row of [_add_row], as values. *)
Record row : Type := Row
    { row_stage    : string;
      row_area_m2  : R;
      row_area_ft2 : R;
      row_diam_m   : R;
      row_diam_in  : R;
      row_display  : rounded_display }.

  (** [ParachuteGUI._add_row(stage, area_m2, diam_m, rounding_mode, safety)]:
      the row it appends to the table. *)
Definition _add_row (stage : string) (area_m2 diam_m : R)
             (rounding_mode : string) (safety : R) : row :=
    let area_ft2 := area_m2 * M2_TO_FT2 in
    let diam_in := diam_m * M_TO_IN in
    let diam_ft := diam_m * M_TO_FT in
    let diam_ft_sf := diam_ft * sqrt safety in
    let display :=
      if geb diam_ft_sf 1.0 then
        let diam_ft_purchase := round_feet diam_ft_sf rounding_mode in
        DisplayFeet diam_ft_purchase
      else
        let inches_purchase := round (diam_in * sqrt safety) in
        DisplayInches inches_purchase in
    Row stage area_m2 area_ft2 diam_m diam_in display.

  (** [_populate_single] and [_populate_dual]: the rows of the table. *)
Definition _populate_single (res : SingleResult.t) (safety : R)
             (rounding_mode : string) : list row :=
    [ _add_row "Total" (SingleResult.S_total_m2 res) (SingleResult.D_total_m res)
               rounding_mode safety ].

Definition _populate_dual (res : DualResult.t) (safety : R)
             (rounding_mode : string) : list row :=
    [ _add_row "Total" (DualResult.S_total_m2 res) (DualResult.D_total_m res)
               rounding_mode safety;
      _add_row "Drogue" (DualResult.S_drogue_m2 res) (DualResult.D_drogue_m res)
               rounding_mode safety;
      _add_row "Main" (DualResult.S_main_m2 res) (DualResult.D_main_m res)
               rounding_mode safety ].

(** The values [_on_compute] reads from the widgets. *)
Record widgets : Type := Widgets
  { mode_combo       : string;
    safety_spin      : R;
    round_combo      : string;
    drogue_frac_spin : R;
    g_spin           : R;
    m_spin           : R;
    rho_spin         : R;
    cd_spin          : R;
    cd_drogue_spin   : R;
    cd_main_spin     : R;
    v_spin           : R }.

(** The ranges [_build_ui] gives to the spin boxes ([LabeledSpin(minimum,
    maximum, ...)], which calls [setRange]). *)
Definition in_spin_ranges (w : widgets) : Prop :=
  1.0 <= safety_spin w <= 5.0 /\
  0.01 <= drogue_frac_spin w <= 0.90 /\
  1.0 <= g_spin w <= 20.0 /\
  0.01 <= m_spin w <= 1000.0 /\
  0.1 <= rho_spin w <= 2.0 /\
  0.2 <= cd_spin w <= 2.5 /\
  0.2 <= cd_drogue_spin w <= 2.5 /\
  0.2 <= cd_main_spin w <= 2.5 /\
  0.5 <= v_spin w <= 30.0.

(** What [_on_compute] leaves on the screen: the rows of the table, the
    text of the warning label, and the text of the error dialog if one was
    shown. *)
Record screen : Type := Screen
  { table       : list row;
    warn_label  : string;
    message_box : option string }.

Definition advisory : string :=
  "Advisory: V ≥ 15 m/s is on the high side for safe recovery. Consider a lower target if structurally permissible.".

(** [_add_row] calls [math.sqrt(safety)] before it touches the table, and
    [math.sqrt] raises [ValueError] on a negative argument. *)
Definition populated (safety : R) (rows : list row) : outcome (list row) :=
  if ltb safety 0 then Raise (ValueError "math domain error") else Return rows.

(** [ParachuteGUI._on_compute]: the warning and the table are cleared, the
    engine is called for the selected mode and the table filled, the advisory
    is set for a fast descent; any exception on the way ends in the error
    dialog, with the table and the warning left cleared. *)
Definition _on_compute (w : widgets) : screen :=
  let mode := mode_combo w in
  let safety := safety_spin w in
  let rounding_mode := round_combo w in
  let g := g_spin w in
  let m := m_spin w in
  let rho := rho_spin w in
  let V := v_spin w in
  let attempt : outcome (list row) :=
    if String.eqb mode "single" then
      let Cd := cd_spin w in
      match compute_single g m rho Cd V with
      | Return res => populated safety (_populate_single res safety rounding_mode)
      | Raise e => Raise e
      end
    else
      let Cd_d := cd_drogue_spin w in
      let Cd_m := cd_main_spin w in
      let f := drogue_frac_spin w in
      match compute_dual g m rho Cd_d Cd_m V f with
      | Return res => populated safety (_populate_dual res safety rounding_mode)
      | Raise e => Raise e
      end in
  match attempt with
  | Return rows => Screen rows (if geb V 15.0 then advisory else "") None
  | Raise (ValueError msg) => Screen [] "" (Some msg)
  end.

End Gui.

(** ** parachute_area.py *)

Module Cli.

Import Py.

Definition m2_to_ft2 : R := 10.7639.
Definition m_to_inch : R := 39.3701.
Definition m_to_ft   : R := 3.28084.

  (** The variables of the [single] branch that its two [print] calls show;
      [*_sf] are the values printed after "or". *)
Record single_report : Type := SingleReport
    { S_total       : R;
      S_total_ft2   : R;
      S_total_ft2_sf : R;
      D_total       : R;
      D_total_in    : R;
      D_total_ft    : R;
      D_total_ft_sf : R }.

  (** The branch [if deployment_mode == "single":]. *)
Definition single (safety_factor g m rho_air C_d V : R) : single_report :=
    let S_total := round_to ((2.0 * g * m) / (rho_air * C_d * V * V)) 3 in
    let D_total := round_to (sqrt (S_total * 4 / PI)) 1 in
    let S_total_ft2 := round_to (S_total * m2_to_ft2) 3 in
    let D_total_in := round_to (D_total * m_to_inch) 1 in
    let D_total_ft := round_to (D_total * m_to_ft) 1 in
    let D_total_ft :=
      if gtb D_total_ft 1 then float (round D_total_ft) else D_total_ft in
    SingleReport S_total S_total_ft2 (round_to (safety_factor * S_total_ft2) 3)
                 D_total D_total_in D_total_ft
                 (round_to (safety_factor * D_total_ft) 3).

  (** The variables of the [else:] branch (dual deployment). *)
Record dual_report : Type := DualReport
    { dual_S_total        : R;
      dual_D_total        : R;
      dual_S_total_ft2    : R;
      dual_S_total_ft2_sf : R;
      dual_D_total_in     : R;
      dual_D_total_ft     : R;
      S_drogue            : R;
      D_drogue            : R;
      S_drogue_ft2        : R;
      S_drogue_ft2_sf     : R;
      D_drogue_in         : R;
      D_drogue_ft         : R;
      D_drogue_ft_sf      : R;
      S_main              : R;
      D_main              : R;
      S_main_ft2          : R;
      S_main_ft2_sf       : R;
      D_main_in           : R;
      D_main_ft           : R;
      D_main_ft_sf        : R }.

  (** The branch [else:]. *)
Definition dual (safety_factor g m rho_air C_d_drogue C_d_main V : R)
    : dual_report :=
    let C_d_avg := (C_d_drogue + C_d_main) / 2 in
    let S_total := round_to ((2.0 * g * m) / (rho_air * C_d_avg * V * V)) 3 in
    let D_total := round_to (sqrt (S_total * 4 / PI)) 1 in
    let S_drogue := round_to (S_total * 0.2) 3 in
    let D_drogue := round_to (D_total * 0.2) 1 in
    let S_main := round_to (S_total * 0.8) 3 in
    let D_main := round_to (D_total * 0.8) 1 in
    let S_total_ft2 := round_to (S_total * m2_to_ft2) 3 in
    let D_total_in := round_to (D_total * m_to_inch) 1 in
    let D_total_ft := round_to (D_total * m_to_ft) 1 in
    let S_drogue_ft2 := round_to (S_drogue * m2_to_ft2) 3 in
    let D_drogue_in := round_to (D_drogue * m_to_inch) 1 in
    let D_drogue_ft := round_to (D_drogue * m_to_ft) 1 in
    let D_drogue_ft :=
      if gtb D_drogue_ft 1 then float (round D_drogue_ft) else D_drogue_ft in
    let S_main_ft2 := round_to (S_main * m2_to_ft2) 3 in
    let D_main_in := round_to (D_main * m_to_inch) 1 in
    let D_main_ft := round_to (D_main * m_to_ft) 1 in
    let D_main_ft :=
      if gtb D_main_ft 1 then float (round D_main_ft) else D_main_ft in
    DualReport S_total D_total S_total_ft2
               (round_to (safety_factor * S_total_ft2) 3)
               D_total_in D_total_ft
               S_drogue D_drogue S_drogue_ft2
               (round_to (safety_factor * S_drogue_ft2) 3)
               D_drogue_in D_drogue_ft
               (round_to (safety_factor * D_drogue_ft) 1)
               S_main D_main S_main_ft2
               (round_to (safety_factor * S_main_ft2) 3)
               D_main_in D_main_ft
               (round_to (safety_factor * D_main_ft) 1).

  (** What one run of the script prints. *)
Inductive report : Type :=
  | Single (r : single_report)
  | Dual (r : dual_report).

  (** The whole script: the answer to the first prompt selects the branch,
      [answers] are the floats typed at the prompts that follow the safety
      factor, in order.  [None] stands for a run that does not get the
      number of answers its branch asks for. *)
Definition script (deployment_mode : string) (safety_factor : R)
             (answers : list R) : option report :=
    if String.eqb deployment_mode "single" then
      match answers with
      | [g; m; rho_air; C_d; V] =>
          Some (Single (single safety_factor g m rho_air C_d V))
      | _ => None
      end
    else
      match answers with
      | [g; m; rho_air; C_d_drogue; C_d_main; V] =>
          Some (Dual (dual safety_factor g m rho_air C_d_drogue C_d_main V))
      | _ => None
      end.

End Cli.

(** ** The engine of parachute_gui.py over binary64 *)

Module Binary64.

Import PrimFloat.
#[local] Set Warnings "-inexact-float".
Local Open Scope float_scope.

(** The two exceptions the engine can end in: the [ValueError] it raises
    itself and that [math.sqrt] raises, and the [ZeroDivisionError] of a
    float division. *)
Inductive exception : Type :=
| ValueError (msg : string)
| ZeroDivisionError (msg : string).

Inductive outcome (A : Type) : Type :=
| Return (a : A)
| Raise (e : exception).
Arguments Return {A} a.
Arguments Raise {A} e.

Definition bind {A B : Type} (c : outcome A) (k : A -> outcome B) : outcome B :=
  match c with
  | Return a => k a
  | Raise e => Raise e
  end.

Notation "x <- c ;; k" := (bind c (fun x => k))
  (at level 61, c at next level, right associativity).

(** [x / y] on floats: a zero divisor, of either sign, raises; overflow and
    invalid operations give [inf] and [nan] without an exception. *)
Definition truediv (x y : float) : outcome float :=
  if eqb y 0 then Raise (ZeroDivisionError "float division by zero")
  else Return (x / y).

(** [math.sqrt]: raises on a negative argument, also on [-inf]; [nan] and
    [-0.0] go through. *)
Definition math_sqrt (x : float) : outcome float :=
  if ltb x 0 then Raise (ValueError "math domain error")
  else Return (sqrt x).

(** [math.pi], the binary64 number nearest to pi. *)
Definition PI : float := 0x1.921fb54442d18p+1.

Module SingleResult.
Record t : Type := Build
  { S_total_m2 : float;
    D_total_m  : float }.
End SingleResult.

Module DualResult.
Record t : Type := Build
  { S_total_m2  : float;
    D_total_m   : float;
    S_drogue_m2 : float;
    D_drogue_m  : float;
    S_main_m2   : float;
    D_main_m    : float }.
End DualResult.

(** [compute_single(g, m, rho_air, Cd, V)] *)
Definition compute_single (g m rho_air Cd V : float) : outcome SingleResult.t :=
  if existsb (fun x => leb x 0) [g; m; rho_air; Cd; V] then
    Raise (ValueError "All inputs must be positive.")
  else
    S_total <- truediv (2.0 * g * m) (rho_air * Cd * V * V) ;;
    q <- truediv (4.0 * S_total) PI ;;
    D_total <- math_sqrt q ;;
    Return (SingleResult.Build S_total D_total).

(** [compute_dual(g, m, rho_air, Cd_drogue, Cd_main, V, drogue_fraction)] *)
Definition compute_dual (g m rho_air Cd_drogue Cd_main V drogue_fraction : float)
  : outcome DualResult.t :=
  if existsb (fun x => leb x 0) [g; m; rho_air; Cd_drogue; Cd_main; V] then
    Raise (ValueError "All inputs must be positive.")
  else if negb (leb 0.01 drogue_fraction && leb drogue_fraction 0.9) then
    Raise (ValueError "Drogue fraction should be in [0.01, 0.90].")
  else
    let Cd_avg := 0.5 * (Cd_drogue + Cd_main) in
    S_total <- truediv (2.0 * g * m) (rho_air * Cd_avg * V * V) ;;
    qt <- truediv (4.0 * S_total) PI ;;
    D_total <- math_sqrt qt ;;
    let S_drogue := S_total * drogue_fraction in
    let S_main := S_total * (1.0 - drogue_fraction) in
    qd <- truediv (4.0 * S_drogue) PI ;;
    D_drogue <- math_sqrt qd ;;
    qm <- truediv (4.0 * S_main) PI ;;
    D_main <- math_sqrt qm ;;
    Return (DualResult.Build S_total D_total S_drogue D_drogue S_main D_main).


End Binary64.

(** ** Facts about the Python built-ins *)

Section PyFacts.

Import Py.

Lemma leb_true (x y : R) : leb x y = true <-> x <= y.
Proof. unfold leb; destruct (Rle_dec x y); split; intros; try easy; lra. Qed.

Lemma leb_false (x y : R) : leb x y = false <-> y < x.
Proof. unfold leb; destruct (Rle_dec x y); split; intros; try easy; lra. Qed.

Lemma ltb_true (x y : R) : ltb x y = true <-> x < y.
Proof. unfold ltb; destruct (Rlt_dec x y); split; intros; try easy; lra. Qed.

Lemma ltb_false (x y : R) : ltb x y = false <-> y <= x.
Proof. unfold ltb; destruct (Rlt_dec x y); split; intros; try easy; lra. Qed.

  (** [round] picks the integer whose open half-unit neighbourhood holds [x]. *)
Lemma round_near (z : Z) (x : R) :
    IZR z - 1 / 2 < x < IZR z + 1 / 2 -> round x = z.
Proof.
    intros [Hlo Hhi]. unfold round.
    destruct (Rle_lt_dec (IZR z) x) as [Hge | Hlt].
    - rewrite (Zfloor_eq z x) by lra.
      destruct (Rlt_dec (x - IZR z) (1 / 2)); [reflexivity | lra].
    - assert (Hf : Zfloor x = (z - 1)%Z).
      { apply Zfloor_eq. rewrite minus_IZR. lra. }
      rewrite Hf, minus_IZR.
      destruct (Rlt_dec (x - (IZR z - 1)) (1 / 2)); [lra |].
      destruct (Rlt_dec (1 / 2) (x - (IZR z - 1))); [f_equal; lia | lra].
Qed.

Lemma round_IZR (z : Z) : round (IZR z) = z.
Proof. apply round_near; lra. Qed.

Lemma floor_IZR (z : Z) : floor (IZR z) = z.
Proof. apply ZfloorZ. Qed.

Lemma ceil_IZR (z : Z) : ceil (IZR z) = z.
Proof. apply Zceil_eq; lra. Qed.

  (** [round(x, n)] is [z / 10^n] as soon as [x * 10^n] is within a half of [z]. *)
Lemma round_to_near (z : Z) (x : R) (n : nat) :
    IZR z - 1 / 2 < x * 10 ^ n < IZR z + 1 / 2 ->
    round_to x n = IZR z / 10 ^ n.
Proof. intros H. unfold round_to. now rewrite (round_near z). Qed.

(** The same, with the result written as the caller likes it. *)
Lemma round_to_eq (z : Z) (x : R) (n : nat) (v : R) :
  IZR z - 1 / 2 < x * 10 ^ n < IZR z + 1 / 2 ->
  v = IZR z / 10 ^ n ->
  round_to x n = v.
Proof. intros H ->. now apply round_to_near. Qed.


End PyFacts.


(** ** The sizing formulas over positive reals *)

Section Formulas.

(** The drag-balance area is positive for positive inputs. *)
Lemma area_pos (g m rho Cd V : R) :
  0 < g -> 0 < m -> 0 < rho -> 0 < Cd -> 0 < V ->
  0 < (2.0 * g * m) / (rho * Cd * V * V).
Proof.
  intros Hg Hm Hrho HCd HV.
  apply Rdiv_lt_0_compat.
  - apply Rmult_lt_0_compat; [apply Rmult_lt_0_compat; [lra | exact Hg] | exact Hm].
  - repeat apply Rmult_lt_0_compat; assumption.
Qed.

(** The circle-area inversion of a positive area is positive. *)
Lemma diameter_pos (S : R) : 0 < S -> 0 < sqrt (4.0 * S / PI).
Proof.
  intros HS. apply sqrt_lt_R0.
  apply Rdiv_lt_0_compat; [lra | apply PI_RGT_0].
Qed.


(** [a < sqrt x < b] from the squares of the bounds. *)
Lemma sqrt_between (a b x : R) :
  0 <= a -> 0 <= b -> a * a < x < b * b -> a < sqrt x < b.
Proof.
  intros Ha Hb [Hlo Hhi].
  assert (Hx : 0 <= x) by nra.
  split.
  - rewrite <- (sqrt_square a Ha). apply sqrt_lt_1_alt. nra.
  - rewrite <- (sqrt_square b Hb). apply sqrt_lt_1_alt. nra.
Qed.

(** Machin-like series of the standard library, cut after three terms. *)
Lemma PI_bounds : 3.14 < PI < 3.15.
Proof.
  destruct (PI_2_3_7_ineq 1) as [Hlo Hhi].
  unfold sum_f_R0, tg_alt, PI_2_3_7_tg, Ratan_seq in Hlo, Hhi.
  simpl in Hlo, Hhi.
  split; lra.
Qed.

(** Bounds of a positive constant divided by [PI]. *)
Lemma div_PI_between (c lo hi : R) :
  0 < c -> 0 <= lo -> lo * 3.15 <= c -> c <= hi * 3.14 -> lo < c / PI < hi.
Proof.
  intros Hc Hlo H1 H2.
  destruct PI_bounds as [Hl Hu].
  assert (HPI : 0 < PI) by lra.
  assert (Hq : c / PI * PI = c) by (field; lra).
  assert (Hpos : 0 < c / PI) by (apply Rdiv_lt_0_compat; assumption).
  split; nra.
Qed.

(** Bounds of the diameter of a circle of area [c / 4]. *)
Lemma sqrt_div_PI_between (c a b : R) :
  0 < c -> 0 <= a -> 0 <= b ->
  a * a * 3.15 <= c -> c <= b * b * 3.14 ->
  a < sqrt (c / PI) < b.
Proof.
  intros Hc Ha Hb H1 H2.
  apply sqrt_between; try assumption.
  apply div_PI_between; try assumption. nra.
Qed.

End Formulas.

(** ** Validation of the inputs *)

Section Validation.

Import Py Gui.

Lemma any_nonpositive_false (xs : list R) :
  any (fun x => leb x 0) xs = false <-> Forall (fun x => 0 < x) xs.
Proof.
  unfold any. induction xs as [| x xs IH]; simpl.
  - split; [constructor | reflexivity].
  - rewrite orb_false_iff, leb_false, IH. split.
    + intros [H1 H2]; constructor; assumption.
    + intros H; inversion H; subst; split; assumption.
Qed.

Lemma any_nonpositive_true (xs : list R) :
  any (fun x => leb x 0) xs = true <-> Exists (fun x => x <= 0) xs.
Proof.
  unfold any. induction xs as [| x xs IH]; simpl.
  - split; [discriminate | intros H; inversion H].
  - rewrite orb_true_iff, leb_true, IH. split.
    + intros [H | H]; [left | right]; assumption.
    + intros H; inversion H; subst; [left | right]; assumption.
Qed.

(** On positive inputs [compute_single] returns the two formulas. *)
Lemma compute_single_returns (g m rho Cd V : R) :
  0 < g -> 0 < m -> 0 < rho -> 0 < Cd -> 0 < V ->
  compute_single g m rho Cd V =
  Return (SingleResult.Build
            ((2.0 * g * m) / (rho * Cd * V * V))
            (sqrt (4.0 * ((2.0 * g * m) / (rho * Cd * V * V)) / PI))).
Proof.
  intros Hg Hm Hrho HCd HV. unfold compute_single.
  assert (H : any (fun x => leb x 0) [g; m; rho; Cd; V] = false).
  { apply any_nonpositive_false. repeat constructor; assumption. }
  rewrite H. reflexivity.
Qed.

(** With a non-positive input [compute_single] raises. *)
Lemma compute_single_raises (g m rho Cd V : R) :
  g <= 0 \/ m <= 0 \/ rho <= 0 \/ Cd <= 0 \/ V <= 0 ->
  compute_single g m rho Cd V = Raise (ValueError "All inputs must be positive.").
Proof.
  intros H. unfold compute_single.
  assert (E : any (fun x => leb x 0) [g; m; rho; Cd; V] = true).
  { apply any_nonpositive_true.
    destruct H as [H | [H | [H | [H | H]]]];
      [ apply Exists_cons_hd
      | do 1 apply Exists_cons_tl; apply Exists_cons_hd
      | do 2 apply Exists_cons_tl; apply Exists_cons_hd
      | do 3 apply Exists_cons_tl; apply Exists_cons_hd
      | do 4 apply Exists_cons_tl; apply Exists_cons_hd ]; exact H. }
  rewrite E. reflexivity.
Qed.

(** On valid inputs [compute_dual] returns the six formulas. *)
Lemma compute_dual_returns (g m rho Cd_drogue Cd_main V f : R) :
  0 < g -> 0 < m -> 0 < rho -> 0 < Cd_drogue -> 0 < Cd_main -> 0 < V ->
  0.01 <= f <= 0.9 ->
  compute_dual g m rho Cd_drogue Cd_main V f =
  let S_total := (2.0 * g * m) / (rho * (0.5 * (Cd_drogue + Cd_main)) * V * V) in
  Return (DualResult.Build
            S_total (sqrt (4.0 * S_total / PI))
            (S_total * f) (sqrt (4.0 * (S_total * f) / PI))
            (S_total * (1.0 - f)) (sqrt (4.0 * (S_total * (1.0 - f)) / PI))).
Proof.
  intros Hg Hm Hrho Hd Hmn HV [Hf1 Hf2]. unfold compute_dual.
  assert (H : any (fun x => leb x 0) [g; m; rho; Cd_drogue; Cd_main; V] = false).
  { apply any_nonpositive_false. repeat constructor; assumption. }
  rewrite H.
  assert (H1 : leb 0.01 f = true) by (apply leb_true; exact Hf1).
  assert (H2 : leb f 0.9 = true) by (apply leb_true; exact Hf2).
  rewrite H1, H2. reflexivity.
Qed.



End Validation.

(** ** The sizing engine of parachute_gui.py *)

Section Engine.

Import Py Gui.




(** The specification's invalid case: a mass of -5 raises and returns
    nothing. *)
Lemma compute_single_negative_mass :
  compute_single 9.81 (-5) 1.225 1.2 10 =
  Raise (ValueError "All inputs must be positive.").
Proof. apply compute_single_raises. right; left; lra. Qed.







(** *** Purchase-size rounding *)

(** Whatever the mode, [round_feet] leaves an integer where it is. *)
Lemma round_feet_IZR (z : Z) (mode : string) : round_feet (IZR z) mode = IZR z.
Proof.
  unfold round_feet, float.
  destruct (String.eqb mode FootRounding.NEAREST); [now rewrite round_IZR |].
  destruct (String.eqb mode FootRounding.UP); [now rewrite ceil_IZR |].
  destruct (String.eqb mode FootRounding.DOWN); [now rewrite floor_IZR |].
  reflexivity.
Qed.

(** Rounding twice is rounding once, for every input and every mode. *)
Lemma round_feet_twice (v : R) (mode : string) :
  round_feet (round_feet v mode) mode = round_feet v mode.
Proof.
  assert (H : round_feet v mode = v \/ exists z, round_feet v mode = IZR z).
  { unfold round_feet, float.
    destruct (String.eqb mode FootRounding.NEAREST); [right; eauto |].
    destruct (String.eqb mode FootRounding.UP); [right; eauto |].
    destruct (String.eqb mode FootRounding.DOWN); [right; eauto |].
    left; reflexivity. }
  destruct H as [H | [z H]]; rewrite H.
  - exact H.
  - apply round_feet_IZR.
Qed.

(** C8. Rounding a whole-foot diameter again returns the same value under
    each of the policies None, Nearest, Ceiling and Floor. *)
Theorem round_feet_idempotent (v : R) (mode : string) :
  whole_foot v -> In mode policies ->
  round_feet v mode = v /\
  round_feet (round_feet v mode) mode = round_feet v mode.
Proof.
  intros [z ->] _. split; [apply round_feet_IZR | apply round_feet_twice].
Qed.

Lemma round_feet_idempotent_witness :
  round_feet 4 FootRounding.UP = 4 /\
  round_feet (round_feet 4 FootRounding.UP) FootRounding.UP =
  round_feet 4 FootRounding.UP.
Proof.
  apply (round_feet_idempotent 4 FootRounding.UP).
  - exists 4%Z. reflexivity.
  - simpl. tauto.
Defined.

(** C10. For every mode string other than the three named rounding modes
    [round_feet] returns its input unchanged: an unrecognised policy string
    behaves like "None" and raises nothing. *)
Theorem round_feet_unrecognised_mode (v : R) (mode : string) :
  mode <> FootRounding.NEAREST -> mode <> FootRounding.UP ->
  mode <> FootRounding.DOWN ->
  round_feet v mode = v.
Proof.
  intros H1 H2 H3. unfold round_feet.
  apply String.eqb_neq in H1, H2, H3.
  now rewrite H1, H2, H3.
Qed.

Lemma round_feet_unrecognised_mode_witness :
  round_feet 4.37 "nearest" = 4.37.
Proof.
  apply (round_feet_unrecognised_mode 4.37 "nearest"); discriminate.
Defined.

(** *** What the GUI path does for the diameters *)

(** In [compute_dual] each sub-diameter is the circle-area inversion of its
    own sub-area, and differs from the total diameter scaled by the area
    fraction. *)
Lemma compute_dual_diameters_from_own_area (g m rho Cd_drogue Cd_main V f : R) :
  0 < g -> 0 < m -> 0 < rho -> 0 < Cd_drogue -> 0 < Cd_main -> 0 < V ->
  0.01 <= f <= 0.9 ->
  exists d : DualResult.t,
    compute_dual g m rho Cd_drogue Cd_main V f = Return d /\
    DualResult.D_drogue_m d = sqrt (4 * DualResult.S_drogue_m2 d / PI) /\
    DualResult.D_main_m d = sqrt (4 * DualResult.S_main_m2 d / PI) /\
    DualResult.D_drogue_m d <> f * DualResult.D_total_m d /\
    DualResult.D_main_m d <> (1 - f) * DualResult.D_total_m d.
Proof.
  intros Hg Hm Hrho Hd Hmn HV Hf.
  assert (Havg : 0 < 0.5 * (Cd_drogue + Cd_main)) by lra.
  assert (Ht : 0 < (2.0 * g * m) / (rho * (0.5 * (Cd_drogue + Cd_main)) * V * V))
    by (apply area_pos; assumption).
  eexists. split; [apply compute_dual_returns; assumption |].
  set (S_total := (2.0 * g * m) / (rho * (0.5 * (Cd_drogue + Cd_main)) * V * V))
    in *.
  cbn -[Rmult Rdiv Rplus Rminus IZR sqrt PI].
  pose proof PI_RGT_0 as HPI.
  assert (Ha : 0 < 4.0 * S_total / PI)
    by (apply Rdiv_lt_0_compat; lra).
  assert (scaled : forall k, 0 < k < 1 ->
            sqrt (4.0 * (S_total * k) / PI) <> k * sqrt (4.0 * S_total / PI)).
  { intros k Hk Heq.
    assert (E : 4.0 * (S_total * k) / PI = 4.0 * S_total / PI * k)
      by (field; lra).
    rewrite E in Heq.
    assert (Hak : 0 <= 4.0 * S_total / PI * k) by nra.
    pose proof (sqrt_def _ Hak) as D1.
    pose proof (sqrt_def (4.0 * S_total / PI) (Rlt_le _ _ Ha)) as D2.
    rewrite Heq in D1.
    set (a := 4.0 * S_total / PI) in *.
    set (r := sqrt a) in *.
    replace (k * r * (k * r)) with (k * k * (r * r)) in D1 by ring.
    rewrite D2 in D1.
    assert (Hpos : 0 < a * k) by (apply Rmult_lt_0_compat; lra).
    assert (Hprod : 0 < a * k * (1 - k)) by (apply Rmult_lt_0_compat; lra).
    lra. }
  split; [f_equal; f_equal; lra |].
  split; [f_equal; f_equal; lra |].
  split.
  - apply scaled. lra.
  - replace (1 - f) with (1.0 - f) by lra. apply scaled. lra.
Qed.

Lemma sqrt_1_21 : sqrt 1.21 = 1.1.
Proof. apply sqrt_lem_1; lra. Qed.

(** [_add_row] scales the diameter by [sqrt safety], in the foot branch and
    in the inch branch: with a safety factor of 1.21 the multiplier is 1.1. *)
Lemma add_row_safety_is_sqrt (stage mode : string) (area_m2 diam_m : R) :
  row_display (_add_row stage area_m2 diam_m mode 1.21) =
  if geb (diam_m * M_TO_FT * 1.1) 1.0
  then DisplayFeet (round_feet (diam_m * M_TO_FT * 1.1) mode)
  else DisplayInches (round (diam_m * M_TO_IN * 1.1)).
Proof. unfold _add_row. cbn [row_display]. now rewrite sqrt_1_21. Qed.

(** The threshold of [_add_row]: below one foot the cell shows whole inches
    whatever the policy, from one foot on it shows [round_feet] of the
    safety-factored diameter. *)
Lemma add_row_threshold (stage mode : string) (area_m2 diam_m safety : R) :
  (diam_m * M_TO_FT * sqrt safety < 1 ->
   row_display (_add_row stage area_m2 diam_m mode safety) =
   DisplayInches (round (diam_m * M_TO_IN * sqrt safety))) /\
  (1 <= diam_m * M_TO_FT * sqrt safety ->
   row_display (_add_row stage area_m2 diam_m mode safety) =
   DisplayFeet (round_feet (diam_m * M_TO_FT * sqrt safety) mode)).
Proof.
  unfold _add_row, geb. cbn [row_display]. split; intros H.
  - assert (E : leb 1.0 (diam_m * M_TO_FT * sqrt safety) = false)
      by (apply leb_false; lra).
    now rewrite E.
  - assert (E : leb 1.0 (diam_m * M_TO_FT * sqrt safety) = true)
      by (apply leb_true; lra).
    now rewrite E.
Qed.

(** A safety-factored diameter of exactly 0.999 ft is shown as 12 in. *)
Lemma add_row_0_999_ft (stage mode : string) (area_m2 : R) :
  (0.999 / M_TO_FT) * M_TO_FT * sqrt 1 = 0.999 /\
  row_display (_add_row stage area_m2 (0.999 / M_TO_FT) mode 1) =
  DisplayInches 12.
Proof.
  split; [rewrite sqrt_1; unfold M_TO_FT; lra |].
  destruct (add_row_threshold stage mode area_m2 (0.999 / M_TO_FT) 1) as [H _].
  rewrite H by (rewrite sqrt_1; unfold M_TO_FT; lra).
  f_equal. apply round_near. rewrite sqrt_1. unfold M_TO_FT, M_TO_IN. lra.
Qed.

End Engine.

(** ** The prompt-driven script parachute_area.py *)

Section Script.

Import Py.

(** The [single] branch, once the three roundings that feed later lines
    are known. *)
Lemma single_trace (safety_factor g m rho_air C_d V S D Dft : R) :
  round_to ((2.0 * g * m) / (rho_air * C_d * V * V)) 3 = S ->
  round_to (sqrt (S * 4 / PI)) 1 = D ->
  round_to (D * Cli.m_to_ft) 1 = Dft ->
  Cli.single safety_factor g m rho_air C_d V =
  let Dft' := if gtb Dft 1 then float (round Dft) else Dft in
  Cli.SingleReport
    S (round_to (S * Cli.m2_to_ft2) 3)
    (round_to (safety_factor * round_to (S * Cli.m2_to_ft2) 3) 3)
    D (round_to (D * Cli.m_to_inch) 1)
    Dft' (round_to (safety_factor * Dft') 3).
Proof. intros H1 H2 H3. unfold Cli.single. cbv zeta. now rewrite H1, H2, H3. Qed.

(** The specification's concrete case, 10 kg at 10 m/s: the script gets
    1.335 m^2 and 1.3 m, shown as 4 ft. *)
Lemma single_10kg (safety_factor : R) :
  Cli.single safety_factor 9.81 10 1.225 1.2 10 =
  Cli.SingleReport
    1.335 (round_to (1.335 * Cli.m2_to_ft2) 3)
    (round_to (safety_factor * round_to (1.335 * Cli.m2_to_ft2) 3) 3)
    1.3 (round_to (1.3 * Cli.m_to_inch) 1)
    4 (round_to (safety_factor * 4) 3).
Proof.
  rewrite (single_trace safety_factor 9.81 10 1.225 1.2 10 1.335 1.3 4.3).
  - cbv zeta.
    assert (E : gtb 4.3 1 = true) by (apply ltb_true; lra).
    rewrite E. unfold float. rewrite (round_near 4) by lra. reflexivity.
  - apply (round_to_eq 1335); simpl pow; lra.
  - apply (round_to_eq 13); [| simpl pow; lra].
    pose proof (sqrt_div_PI_between (1.335 * 4) 1.25 1.35) as B.
    simpl pow. lra.
  - apply (round_to_eq 43); unfold Cli.m_to_ft; simpl pow; lra.
Qed.

(** C3, on the script.  The claim asks for a diameter multiplier of
    [sqrt factor] at every call site; the script multiplies the diameter in
    feet by the factor itself.  With a safety factor of 1.21 and the 10 kg
    case it prints 4.84 ft, that is 1.21 times the 4 ft it shows, where the
    rule of the claim gives 1.1 times 4 ft, 4.4 ft. *)
Theorem script_scales_diameter_by_plain_factor :
  let r := Cli.single 1.21 9.81 10 1.225 1.2 10 in
  Cli.D_total_ft r = 4 /\
  Cli.D_total_ft_sf r = 4.84 /\
  Cli.D_total_ft_sf r = 1.21 * Cli.D_total_ft r /\
  sqrt 1.21 * Cli.D_total_ft r = 4.4.
Proof.
  cbv zeta. rewrite single_10kg. cbn [Cli.D_total_ft Cli.D_total_ft_sf].
  assert (E : round_to (1.21 * 4) 3 = 4.84)
    by (apply (round_to_eq 4840); simpl pow; lra).
  rewrite E, sqrt_1_21. repeat split; lra.
Qed.

(** The dual branch on the 10 kg case with both drag coefficients 1.2. *)
Lemma dual_10kg (safety_factor : R) :
  let r := Cli.dual safety_factor 9.81 10 1.225 1.2 1.2 10 in
  Cli.dual_S_total r = 1.335 /\ Cli.dual_D_total r = 1.3 /\
  Cli.S_drogue r = 0.267 /\ Cli.D_drogue r = 0.3 /\
  Cli.S_main r = 1.068 /\ Cli.D_main r = 1.
Proof.
  cbv zeta. unfold Cli.dual. cbv zeta.
  cbn [Cli.dual_S_total Cli.dual_D_total Cli.S_drogue Cli.D_drogue
       Cli.S_main Cli.D_main].
  assert (E1 : round_to (2.0 * 9.81 * 10 / (1.225 * ((1.2 + 1.2) / 2) * 10 * 10)) 3
               = 1.335)
    by (apply (round_to_eq 1335); simpl pow; lra).
  rewrite E1.
  assert (E2 : round_to (sqrt (1.335 * 4 / PI)) 1 = 1.3).
  { apply (round_to_eq 13); [| simpl pow; lra].
    pose proof (sqrt_div_PI_between (1.335 * 4) 1.25 1.35) as B.
    simpl pow. lra. }
  rewrite E2.
  repeat split.
  - apply (round_to_eq 267); simpl pow; lra.
  - apply (round_to_eq 3); simpl pow; lra.
  - apply (round_to_eq 1068); simpl pow; lra.
  - apply (round_to_eq 10); simpl pow; lra.
Qed.

(** C2, on the script.  The claim asks for each sub-diameter to be the
    circle-area inversion of its own sub-area; the dual branch of the script
    multiplies the total diameter by the area fractions 0.2 and 0.8.  On
    the 10 kg case it prints 0.3 m and 1.0 m for areas whose circles have,
    to the same one decimal, diameters 0.6 m and 1.2 m. *)
Theorem script_scales_total_diameter_by_area_fraction :
  let r := Cli.dual 1.1 9.81 10 1.225 1.2 1.2 10 in
  Cli.D_drogue r = round_to (Cli.dual_D_total r * 0.2) 1 /\
  Cli.D_main r = round_to (Cli.dual_D_total r * 0.8) 1 /\
  Cli.D_drogue r = 0.3 /\
  round_to (sqrt (Cli.S_drogue r * 4 / PI)) 1 = 0.6 /\
  Cli.D_main r = 1 /\
  round_to (sqrt (Cli.S_main r * 4 / PI)) 1 = 1.2.
Proof.
  cbv zeta.
  destruct (dual_10kg 1.1) as (_ & _ & Sd & Dd & Sm & Dm).
  cbv zeta in Sd, Dd, Sm, Dm.
  split; [reflexivity |]. split; [reflexivity |].
  rewrite Sd, Sm.
  split; [exact Dd |].
  split.
  { apply (round_to_eq 6); [| simpl pow; lra].
    pose proof (sqrt_div_PI_between (0.267 * 4) 0.55 0.65) as B.
    simpl pow. lra. }
  split; [exact Dm |].
  apply (round_to_eq 12); [| simpl pow; lra].
  pose proof (sqrt_div_PI_between (1.068 * 4) 1.15 1.25) as B.
  simpl pow. lra.
Qed.

(** A 0.2 kg case: the script gets 0.027 m^2 and 0.2 m, that is 0.656 ft,
    and leaves the one-decimal value 0.7 as it is. *)
Lemma single_200g (safety_factor : R) :
  Cli.single safety_factor 9.81 0.2 1.225 1.2 10 =
  Cli.SingleReport
    0.027 (round_to (0.027 * Cli.m2_to_ft2) 3)
    (round_to (safety_factor * round_to (0.027 * Cli.m2_to_ft2) 3) 3)
    0.2 (round_to (0.2 * Cli.m_to_inch) 1)
    0.7 (round_to (safety_factor * 0.7) 3).
Proof.
  rewrite (single_trace safety_factor 9.81 0.2 1.225 1.2 10 0.027 0.2 0.7).
  - cbv zeta.
    assert (E : gtb 0.7 1 = false) by (apply ltb_false; lra).
    rewrite E. reflexivity.
  - apply (round_to_eq 27); simpl pow; lra.
  - apply (round_to_eq 2); [| simpl pow; lra].
    pose proof (sqrt_div_PI_between (0.027 * 4) 0.15 0.25) as B.
    simpl pow. lra.
  - apply (round_to_eq 7); unfold Cli.m_to_ft; simpl pow; lra.
Qed.

(** A 0.5 kg case: 0.3 m, that is 0.984 ft, rounds to 1.0 at one decimal;
    the test [D_total_ft > 1] is false there and the script shows 1.0 ft. *)
Lemma single_500g (safety_factor : R) :
  Cli.single safety_factor 9.81 0.5 1.225 1.2 10 =
  Cli.SingleReport
    0.067 (round_to (0.067 * Cli.m2_to_ft2) 3)
    (round_to (safety_factor * round_to (0.067 * Cli.m2_to_ft2) 3) 3)
    0.3 (round_to (0.3 * Cli.m_to_inch) 1)
    1 (round_to (safety_factor * 1) 3).
Proof.
  rewrite (single_trace safety_factor 9.81 0.5 1.225 1.2 10 0.067 0.3 1).
  - cbv zeta.
    assert (E : gtb 1 1 = false) by (apply ltb_false; lra).
    rewrite E. reflexivity.
  - apply (round_to_eq 67); simpl pow; lra.
  - apply (round_to_eq 3); [| simpl pow; lra].
    pose proof (sqrt_div_PI_between (0.067 * 4) 0.25 0.35) as B.
    simpl pow. lra.
  - apply (round_to_eq 10); unfold Cli.m_to_ft; simpl pow; lra.
Qed.

Lemma sqrt_1_1_bounds : 1.04 < sqrt 1.1 < 1.05.
Proof. apply sqrt_between; lra. Qed.

(** C4, on the script.  The claim asks for every safety-factored diameter
    below 1.0 ft to be reported in whole inches instead of feet.  For the
    0.2 kg case the diameter is 0.2 m, about 0.656 ft; the script prints
    0.7 ft and, with the safety factor 1.1, 0.77 ft, and its inch figure is
    7.9 in, without the safety factor and not whole.  [_add_row] of the GUI
    shows 8 in for the same diameter and safety factor, under every policy. *)
Theorem script_reports_sub_foot_diameter_in_feet :
  let r := Cli.single 1.1 9.81 0.2 1.225 1.2 10 in
  Cli.D_total r = 0.2 /\
  Cli.D_total r * Cli.m_to_ft < 1 /\
  Cli.D_total_ft r = 0.7 /\
  Cli.D_total_ft_sf r = 0.77 /\
  Cli.D_total_in r = 7.9 /\
  forall mode : string,
    Gui.row_display
      (Gui._add_row "Total" (Cli.S_total r) (Cli.D_total r) mode 1.1) =
    Gui.DisplayInches 8.
Proof.
  cbv zeta. rewrite single_200g.
  cbn [Cli.D_total Cli.D_total_ft Cli.D_total_ft_sf Cli.D_total_in Cli.S_total].
  pose proof sqrt_1_1_bounds as B.
  split; [reflexivity |].
  split; [unfold Cli.m_to_ft; lra |].
  split; [reflexivity |].
  split; [apply (round_to_eq 770); simpl pow; lra |].
  split; [apply (round_to_eq 79); unfold Cli.m_to_inch; simpl pow; lra |].
  intros mode.
  destruct (add_row_threshold "Total" mode 0.027 0.2 1.1) as [H _].
  rewrite H by (unfold Gui.M_TO_FT; nra).
  f_equal. apply round_near. unfold Gui.M_TO_IN. nra.
Qed.

(** The boundary of the script's test: a diameter of 0.984 ft with a safety
    factor of 1 is shown as 1 ft, where [_add_row] shows 12 in. *)
Lemma script_shows_0_984_ft_as_1_ft :
  let r := Cli.single 1 9.81 0.5 1.225 1.2 10 in
  Cli.D_total r * Cli.m_to_ft = 0.984252 /\
  Cli.D_total_ft r = 1 /\
  Cli.D_total_ft_sf r = 1 /\
  forall mode : string,
    Gui.row_display
      (Gui._add_row "Total" (Cli.S_total r) (Cli.D_total r) mode 1) =
    Gui.DisplayInches 12.
Proof.
  cbv zeta. rewrite single_500g.
  cbn [Cli.D_total Cli.D_total_ft Cli.D_total_ft_sf Cli.S_total].
  split; [unfold Cli.m_to_ft; lra |].
  split; [reflexivity |].
  split; [apply (round_to_eq 1000); simpl pow; lra |].
  intros mode.
  destruct (add_row_threshold "Total" mode 0.067 0.3 1) as [H _].
  rewrite H by (rewrite sqrt_1; unfold Gui.M_TO_FT; lra).
  f_equal. apply round_near. rewrite sqrt_1. unfold Gui.M_TO_IN. lra.
Qed.

End Script.

(** ** More about rounding *)

Section Rounding.

Import Py Gui.

(** [round] returns the floor, or the floor plus one when [x] lies at least
    a half above it. *)
Lemma round_cases (x : R) :
  round x = Zfloor x \/ (round x = (Zfloor x + 1)%Z /\ IZR (Zfloor x) + 1 / 2 <= x).
Proof.
  unfold round.
  destruct (Rlt_dec (x - IZR (Zfloor x)) (1 / 2)) as [H | H]; [left; reflexivity |].
  destruct (Rlt_dec (1 / 2) (x - IZR (Zfloor x))) as [H' | H'].
  - right. split; [reflexivity | lra].
  - destruct (Z.even (Zfloor x)); [left; reflexivity | right].
    split; [reflexivity | lra].
Qed.

(** [round x] is within a half of [x]. *)
Lemma round_bounds (x : R) : x - 1 / 2 <= IZR (round x) <= x + 1 / 2.
Proof.
  pose proof (Zfloor_bound x) as [Hlo Hhi].
  unfold round.
  destruct (Rlt_dec (x - IZR (Zfloor x)) (1 / 2)) as [H | H]; [lra |].
  destruct (Rlt_dec (1 / 2) (x - IZR (Zfloor x))) as [H' | H'].
  - rewrite plus_IZR. lra.
  - destruct (Z.even (Zfloor x)); [lra | rewrite plus_IZR; lra].
Qed.

(** [round] is monotone. *)
Lemma round_le (x y : R) : x <= y -> (round x <= round y)%Z.
Proof.
  intros Hxy.
  destruct (Z_le_gt_dec (round x) (round y)) as [H | H]; [exact H | exfalso].
  pose proof (round_bounds x) as [_ Bx].
  pose proof (round_bounds y) as [By _].
  assert (Hz : (round y + 1 <= round x)%Z) by lia.
  apply IZR_le in Hz. rewrite plus_IZR in Hz.
  assert (Exy : x = y) by lra.
  subst y. lia.
Qed.

(** The floor, the nearest integer and the ceiling come in this order. *)
Lemma floor_round_ceil (x : R) : (floor x <= round x <= ceil x)%Z.
Proof.
  unfold floor, ceil.
  pose proof (Zfloor_bound x) as [Flo Fhi].
  pose proof (Zceil_bound x) as [Clo Chi].
  destruct (round_cases x) as [E | [E Hx]]; rewrite E.
  - split; [lia |].
    apply le_IZR. lra.
  - split; [lia |].
    destruct (Z_le_gt_dec (Zfloor x + 1) (Zceil x)) as [H | H]; [exact H | exfalso].
    assert (Hz : (Zceil x <= Zfloor x)%Z) by lia.
    apply IZR_le in Hz. lra.
Qed.

(** The ceiling exceeds the floor by at most one. *)
Lemma ceil_floor_gap (x : R) : (ceil x <= floor x + 1)%Z.
Proof.
  unfold floor, ceil.
  pose proof (Zfloor_bound x) as [Flo Fhi].
  pose proof (Zceil_bound x) as [Clo Chi].
  apply Z.lt_succ_r. apply lt_IZR. unfold Z.succ. rewrite !plus_IZR. lra.
Qed.

(** [round(x, n)] is within half a unit of the last place of [x]. *)
Lemma round_to_error (x : R) (n : nat) :
  Rabs (round_to x n - x) <= 1 / 2 / 10 ^ n.
Proof.
  unfold round_to.
  assert (Hp : 0 < 10 ^ n) by (apply pow_lt; lra).
  pose proof (round_bounds (x * 10 ^ n)) as [Hlo Hhi].
  set (r := IZR (round (x * 10 ^ n))) in *.
  assert (E : r / 10 ^ n - x = (r - x * 10 ^ n) / 10 ^ n) by (field; lra).
  rewrite E. unfold Rdiv at 1. rewrite Rabs_mult.
  rewrite (Rabs_pos_eq (/ 10 ^ n)) by (left; apply Rinv_0_lt_compat; exact Hp).
  unfold Rdiv. apply Rmult_le_compat_r.
  - left. apply Rinv_0_lt_compat. exact Hp.
  - apply Rabs_le. lra.
Qed.

(** X1. With the policy "Ceil (next ft)" [round_feet] returns a whole number
    of feet that is at least the input and less than one foot above it. *)
Theorem round_feet_up_bounds (v : R) :
  whole_foot (round_feet v FootRounding.UP) /\
  v <= round_feet v FootRounding.UP < v + 1.
Proof.
  unfold round_feet, float, ceil. cbn [String.eqb].
  change (String.eqb FootRounding.UP FootRounding.NEAREST) with false.
  change (String.eqb FootRounding.UP FootRounding.UP) with true.
  cbv iota.
  pose proof (Zceil_bound v) as [Clo Chi].
  split; [eexists; reflexivity | lra].
Qed.

(** X2. With the policy "Floor (whole ft)" [round_feet] returns a whole
    number of feet that is at most the input and less than one foot below
    it. *)
Theorem round_feet_down_bounds (v : R) :
  whole_foot (round_feet v FootRounding.DOWN) /\
  v - 1 < round_feet v FootRounding.DOWN <= v.
Proof.
  unfold round_feet, float, floor.
  change (String.eqb FootRounding.DOWN FootRounding.NEAREST) with false.
  change (String.eqb FootRounding.DOWN FootRounding.UP) with false.
  change (String.eqb FootRounding.DOWN FootRounding.DOWN) with true.
  cbv iota.
  pose proof (Zfloor_bound v) as [Flo Fhi].
  split; [eexists; reflexivity | lra].
Qed.

(** X3. With the policy "Nearest whole ft" [round_feet] returns a whole
    number of feet at most half a foot away from the input. *)
Theorem round_feet_nearest_bounds (v : R) :
  whole_foot (round_feet v FootRounding.NEAREST) /\
  Rabs (round_feet v FootRounding.NEAREST - v) <= 1 / 2.
Proof.
  unfold round_feet, float.
  change (String.eqb FootRounding.NEAREST FootRounding.NEAREST) with true.
  cbv iota.
  pose proof (round_bounds v) as [Lo Hi].
  split; [eexists; reflexivity | apply Rabs_le; lra].
Qed.

(** X4. For one input the three rounding policies are ordered, Floor below
    Nearest below Ceil, and Ceil is at most one foot above Floor. *)
Theorem round_feet_policies_ordered (v : R) :
  round_feet v FootRounding.DOWN <= round_feet v FootRounding.NEAREST /\
  round_feet v FootRounding.NEAREST <= round_feet v FootRounding.UP /\
  round_feet v FootRounding.UP <= round_feet v FootRounding.DOWN + 1.
Proof.
  unfold round_feet, float.
  change (String.eqb FootRounding.DOWN FootRounding.NEAREST) with false.
  change (String.eqb FootRounding.DOWN FootRounding.UP) with false.
  change (String.eqb FootRounding.DOWN FootRounding.DOWN) with true.
  change (String.eqb FootRounding.UP FootRounding.NEAREST) with false.
  change (String.eqb FootRounding.UP FootRounding.UP) with true.
  change (String.eqb FootRounding.NEAREST FootRounding.NEAREST) with true.
  cbv iota.
  pose proof (floor_round_ceil v) as [H1 H2].
  pose proof (ceil_floor_gap v) as H3.
  apply IZR_le in H1, H2, H3. rewrite plus_IZR in H3.
  repeat split; lra.
Qed.

(** Each branch of [round_feet] preserves the order of its inputs. *)
Lemma round_feet_le (v w : R) (mode : string) :
  v <= w -> round_feet v mode <= round_feet w mode.
Proof.
  intros Hvw. unfold round_feet, float.
  destruct (String.eqb mode FootRounding.NEAREST);
    [apply IZR_le, round_le, Hvw |].
  destruct (String.eqb mode FootRounding.UP);
    [apply IZR_le, Zceil_le, Hvw |].
  destruct (String.eqb mode FootRounding.DOWN);
    [apply IZR_le, Zfloor_le, Hvw |].
  exact Hvw.
Qed.

(** X5. Under every mode string, [round_feet] is monotone: a larger
    diameter never gets a smaller purchase size. *)
Theorem round_feet_monotone (v w : R) (mode : string) :
  v <= w -> round_feet v mode <= round_feet w mode.
Proof. intros Hvw. apply round_feet_le. exact Hvw. Qed.

Lemma round_feet_monotone_witness :
  round_feet 3.2 FootRounding.NEAREST <= round_feet 3.7 FootRounding.NEAREST.
Proof. apply (round_feet_monotone 3.2 3.7 FootRounding.NEAREST). lra. Defined.

End Rounding.

(** ** The purchase cell of a table row *)

Section PurchaseCell.

Import Py Gui.

(** The inch constant is a little more than twelve times the foot constant. *)
Lemma inch_foot_constants : 12 * M_TO_FT < M_TO_IN < 12.0001 * M_TO_FT.
Proof. unfold M_TO_FT, M_TO_IN. lra. Qed.

(** X6. When [_add_row] shows feet, under any mode string, the number of
    feet it passes to the format is at least 1, and so is that number
    rounded to no decimals: the cell never reads "0 ft". *)
Theorem add_row_feet_at_least_one
        (stage mode : string) (area_m2 diam_m safety x : R) :
  0 <= safety ->
  row_display (_add_row stage area_m2 diam_m mode safety) = DisplayFeet x ->
  1 <= x /\ 1 <= IZR (round x).
Proof.
  intros _. unfold _add_row, geb. cbn [row_display].
  destruct (leb 1.0 (diam_m * M_TO_FT * sqrt safety)) eqn:E; [| discriminate].
  apply leb_true in E.
  intros H. injection H as <-.
  assert (H1 : 1 <= round_feet (diam_m * M_TO_FT * sqrt safety) mode).
  { rewrite <- (round_feet_IZR 1 mode) at 1.
    apply round_feet_le. lra. }
  split; [exact H1 |].
  rewrite <- round_IZR at 1. apply IZR_le, round_le. exact H1.
Qed.

Lemma add_row_feet_at_least_one_witness :
  1 <= round_feet (1 * M_TO_FT * sqrt 1) FootRounding.DOWN /\
  1 <= IZR (round (round_feet (1 * M_TO_FT * sqrt 1) FootRounding.DOWN)).
Proof.
  apply (add_row_feet_at_least_one "Total" FootRounding.DOWN 0.785 1 1);
    [lra |].
  unfold _add_row, geb. cbn [row_display].
  assert (E : leb 1.0 (1 * M_TO_FT * sqrt 1) = true)
    by (apply leb_true; rewrite sqrt_1; unfold M_TO_FT; lra).
  rewrite E. reflexivity.
Defined.

(** X7. When [_add_row] shows inches for a non-negative diameter, the whole
    number of inches lies between 0 and 12. *)
Theorem add_row_inches_at_most_twelve
        (stage mode : string) (area_m2 diam_m safety : R) (n : Z) :
  0 <= diam_m -> 0 <= safety ->
  row_display (_add_row stage area_m2 diam_m mode safety) = DisplayInches n ->
  (0 <= n <= 12)%Z.
Proof.
  intros Hd _. unfold _add_row, geb. cbn [row_display].
  destruct (leb 1.0 (diam_m * M_TO_FT * sqrt safety)) eqn:E; [discriminate |].
  apply leb_false in E.
  intros H. injection H as <-.
  pose proof (sqrt_pos safety) as Hs.
  pose proof inch_foot_constants as [_ Hc].
  assert (Hq : 0 <= diam_m * sqrt safety) by (apply Rmult_le_pos; assumption).
  assert (Hft : diam_m * sqrt safety * M_TO_FT < 1) by lra.
  assert (Hin : diam_m * M_TO_IN * sqrt safety <= 12.0001).
  { replace (diam_m * M_TO_IN * sqrt safety)
      with (diam_m * sqrt safety * M_TO_IN) by ring.
    apply Rle_trans with (diam_m * sqrt safety * (12.0001 * M_TO_FT)).
    - apply Rmult_le_compat_l; lra.
    - replace (diam_m * sqrt safety * (12.0001 * M_TO_FT))
        with (12.0001 * (diam_m * sqrt safety * M_TO_FT)) by ring.
      lra. }
  assert (Hnn : 0 <= diam_m * M_TO_IN * sqrt safety).
  { replace (diam_m * M_TO_IN * sqrt safety)
      with (diam_m * sqrt safety * M_TO_IN) by ring.
    apply Rmult_le_pos; [exact Hq | unfold M_TO_IN; lra]. }
  split.
  - rewrite <- (round_IZR 0). apply round_le. exact Hnn.
  - pose proof (round_bounds (diam_m * M_TO_IN * sqrt safety)) as [_ Hi].
    apply Z.lt_succ_r. apply lt_IZR. simpl. lra.
Qed.

Lemma add_row_inches_at_most_twelve_witness : (0 <= 8 <= 12)%Z.
Proof.
  apply (add_row_inches_at_most_twelve "Total" FootRounding.UP 0.027 0.2 1.1 8).
  - lra.
  - lra.
  - pose proof sqrt_1_1_bounds as B.
    destruct (add_row_threshold "Total" FootRounding.UP 0.027 0.2 1.1) as [H _].
    rewrite H by (unfold M_TO_FT; nra).
    f_equal. apply round_near. unfold M_TO_IN. nra.
Defined.

(** X8. With a safety factor of at least 1 and the policy "Ceil (next ft)",
    the purchase size that [_add_row] shows in feet is never below the
    diameter in feet before the safety factor. *)
Theorem add_row_ceil_never_undersizes
        (stage : string) (area_m2 diam_m safety x : R) :
  0 <= diam_m -> 1 <= safety ->
  row_display (_add_row stage area_m2 diam_m FootRounding.UP safety) =
  DisplayFeet x ->
  diam_m * M_TO_FT <= diam_m * M_TO_FT * sqrt safety <= x.
Proof.
  intros Hd Hs. unfold _add_row, geb. cbn [row_display].
  destruct (leb 1.0 (diam_m * M_TO_FT * sqrt safety)) eqn:E; [| discriminate].
  intros H. injection H as <-.
  assert (Hsq : 1 <= sqrt safety).
  { rewrite <- sqrt_1. apply sqrt_le_1_alt. exact Hs. }
  assert (Hft : 0 <= diam_m * M_TO_FT)
    by (apply Rmult_le_pos; [exact Hd | unfold M_TO_FT; lra]).
  split.
  - rewrite <- (Rmult_1_r (diam_m * M_TO_FT)) at 1.
    apply Rmult_le_compat_l; assumption.
  - unfold round_feet, float, ceil.
    change (String.eqb FootRounding.UP FootRounding.NEAREST) with false.
    change (String.eqb FootRounding.UP FootRounding.UP) with true.
    cbv iota.
    apply (Zceil_bound (diam_m * M_TO_FT * sqrt safety)).
Qed.

Lemma add_row_ceil_never_undersizes_witness :
  1 * M_TO_FT <= 1 * M_TO_FT * sqrt 1 <=
  round_feet (1 * M_TO_FT * sqrt 1) FootRounding.UP.
Proof.
  apply (add_row_ceil_never_undersizes "Total" 0.785 1 1).
  - lra.
  - lra.
  - unfold _add_row, geb. cbn [row_display].
    assert (E : leb 1.0 (1 * M_TO_FT * sqrt 1) = true)
      by (apply leb_true; rewrite sqrt_1; unfold M_TO_FT; lra).
    rewrite E. reflexivity.
Defined.

End PurchaseCell.

(** ** How the engine's results depend on its inputs *)

Section Dependence.

Import Py Gui.

(** X9. [compute_dual] does not tell the two drag coefficients apart:
    exchanging them gives the same outcome, result or error. *)
Theorem compute_dual_swap_Cd (g m rho Cd_drogue Cd_main V f : R) :
  compute_dual g m rho Cd_main Cd_drogue V f =
  compute_dual g m rho Cd_drogue Cd_main V f.
Proof.
  unfold compute_dual, any. cbn [existsb].
  replace (0.5 * (Cd_main + Cd_drogue)) with (0.5 * (Cd_drogue + Cd_main)) by ring.
  destruct (leb g 0), (leb m 0), (leb rho 0), (leb Cd_main 0),
    (leb Cd_drogue 0), (leb V 0); reflexivity.
Qed.

(** X10. For valid inputs the diameters of [compute_dual] satisfy
    [D_drogue^2 + D_main^2 = D_total^2]; each sub-diameter is smaller than
    the total diameter, and the two together are larger. *)
Theorem compute_dual_diameters_pythagorean (g m rho Cd_drogue Cd_main V f : R) :
  0 < g -> 0 < m -> 0 < rho -> 0 < Cd_drogue -> 0 < Cd_main -> 0 < V ->
  0.01 <= f <= 0.9 ->
  exists d : DualResult.t,
    compute_dual g m rho Cd_drogue Cd_main V f = Return d /\
    DualResult.D_drogue_m d ^ 2 + DualResult.D_main_m d ^ 2 =
    DualResult.D_total_m d ^ 2 /\
    DualResult.D_drogue_m d < DualResult.D_total_m d /\
    DualResult.D_main_m d < DualResult.D_total_m d /\
    DualResult.D_total_m d < DualResult.D_drogue_m d + DualResult.D_main_m d.
Proof.
  intros Hg Hm Hrho Hd Hmn HV Hf.
  assert (Havg : 0 < 0.5 * (Cd_drogue + Cd_main)) by lra.
  assert (Ht : 0 < (2.0 * g * m) / (rho * (0.5 * (Cd_drogue + Cd_main)) * V * V))
    by (apply area_pos; assumption).
  eexists. split; [apply compute_dual_returns; assumption |].
  set (S_total := (2.0 * g * m) / (rho * (0.5 * (Cd_drogue + Cd_main)) * V * V))
    in *.
  cbn -[Rmult Rdiv Rplus Rminus IZR sqrt PI pow].
  pose proof PI_RGT_0 as HPI.
  assert (Hdr : 0 < S_total * f) by (apply Rmult_lt_0_compat; lra).
  assert (Hma : 0 < S_total * (1.0 - f)) by (apply Rmult_lt_0_compat; lra).
  pose proof (diameter_pos _ Ht) as Pt.
  pose proof (diameter_pos _ Hdr) as Pd.
  pose proof (diameter_pos _ Hma) as Pm.
  assert (At : 0 <= 4.0 * S_total / PI)
    by (left; apply Rdiv_lt_0_compat; lra).
  assert (Ad : 0 <= 4.0 * (S_total * f) / PI)
    by (left; apply Rdiv_lt_0_compat; lra).
  assert (Am : 0 <= 4.0 * (S_total * (1.0 - f)) / PI)
    by (left; apply Rdiv_lt_0_compat; lra).
  pose proof (sqrt_def _ At) as Qt.
  pose proof (sqrt_def _ Ad) as Qd.
  pose proof (sqrt_def _ Am) as Qm.
  assert (Esum : 4.0 * (S_total * f) / PI + 4.0 * (S_total * (1.0 - f)) / PI =
                 4.0 * S_total / PI)
    by (replace (1.0 - f) with (1 - f) by lra; field; lra).
  assert (Ef : 4.0 * (S_total * f) / PI = 4.0 * S_total / PI * f) by (field; lra).
  assert (Em : 4.0 * (S_total * (1.0 - f)) / PI = 4.0 * S_total / PI * (1.0 - f))
    by (replace (1.0 - f) with (1 - f) by lra; field; lra).
  set (Dt := sqrt (4.0 * S_total / PI)) in *.
  set (Dd := sqrt (4.0 * (S_total * f) / PI)) in *.
  set (Dm := sqrt (4.0 * (S_total * (1.0 - f)) / PI)) in *.
  set (a := 4.0 * S_total / PI) in *.
  assert (Ha : 0 < a) by nra.
  assert (Sq : Dd * Dd + Dm * Dm = Dt * Dt) by lra.
  assert (Ltd : Dd * Dd < Dt * Dt).
  { rewrite Qd, Qt, Ef. nra. }
  assert (Ltm : Dm * Dm < Dt * Dt).
  { rewrite Qm, Qt, Em. nra. }
  split; [simpl; lra |].
  split; [nra |]. split; [nra |].
  assert (Hprod : 0 < Dd * Dm) by (apply Rmult_lt_0_compat; assumption).
  nra.
Qed.

Lemma compute_dual_diameters_pythagorean_witness :
  exists d : DualResult.t,
    compute_dual 9.81 10 1.225 1.5 0.8 10 0.2 = Return d /\
    DualResult.D_drogue_m d ^ 2 + DualResult.D_main_m d ^ 2 =
    DualResult.D_total_m d ^ 2 /\
    DualResult.D_drogue_m d < DualResult.D_total_m d /\
    DualResult.D_main_m d < DualResult.D_total_m d /\
    DualResult.D_total_m d < DualResult.D_drogue_m d + DualResult.D_main_m d.
Proof.
  apply (compute_dual_diameters_pythagorean 9.81 10 1.225 1.5 0.8 10 0.2); lra.
Defined.

(** X11. In exact arithmetic, for valid inputs the drogue is the smaller
    canopy exactly when the drogue fraction is below one half. *)
Theorem compute_dual_drogue_smaller_iff (g m rho Cd_drogue Cd_main V f : R) :
  0 < g -> 0 < m -> 0 < rho -> 0 < Cd_drogue -> 0 < Cd_main -> 0 < V ->
  0.01 <= f <= 0.9 ->
  exists d : DualResult.t,
    compute_dual g m rho Cd_drogue Cd_main V f = Return d /\
    (DualResult.D_drogue_m d < DualResult.D_main_m d <-> f < 0.5) /\
    (DualResult.S_drogue_m2 d < DualResult.S_main_m2 d <-> f < 0.5).
Proof.
  intros Hg Hm Hrho Hd Hmn HV Hf.
  assert (Havg : 0 < 0.5 * (Cd_drogue + Cd_main)) by lra.
  assert (Ht : 0 < (2.0 * g * m) / (rho * (0.5 * (Cd_drogue + Cd_main)) * V * V))
    by (apply area_pos; assumption).
  eexists. split; [apply compute_dual_returns; assumption |].
  set (S_total := (2.0 * g * m) / (rho * (0.5 * (Cd_drogue + Cd_main)) * V * V))
    in *.
  cbn -[Rmult Rdiv Rplus Rminus IZR sqrt PI].
  pose proof PI_RGT_0 as HPI.
  assert (Areas : S_total * f < S_total * (1.0 - f) <-> f < 0.5).
  { split; intros H; nra. }
  split; [| exact Areas].
  assert (Ad : 0 <= 4.0 * (S_total * f) / PI)
    by (left; apply Rdiv_lt_0_compat; nra).
  assert (Am : 0 <= 4.0 * (S_total * (1.0 - f)) / PI)
    by (left; apply Rdiv_lt_0_compat; nra).
  assert (Mono : forall x y, x < y -> 4.0 * x / PI < 4.0 * y / PI).
  { intros x y Hxy. unfold Rdiv. apply Rmult_lt_compat_r;
      [apply Rinv_0_lt_compat; exact HPI | lra]. }
  split.
  - intros H. apply Areas.
    destruct (Rlt_le_dec (S_total * f) (S_total * (1.0 - f))) as [L | L];
      [exact L | exfalso].
    assert (Hle : 4.0 * (S_total * (1.0 - f)) / PI <= 4.0 * (S_total * f) / PI).
    { destruct L as [L | L]; [left; apply Mono; exact L | right; now rewrite L]. }
    pose proof (sqrt_le_1_alt _ _ Hle). lra.
  - intros H. apply sqrt_lt_1_alt. split; [exact Ad |].
    apply Mono. apply Areas. exact H.
Qed.

Lemma compute_dual_drogue_smaller_iff_witness :
  exists d : DualResult.t,
    compute_dual 9.81 10 1.225 1.5 0.8 10 0.2 = Return d /\
    (DualResult.D_drogue_m d < DualResult.D_main_m d <-> 0.2 < 0.5) /\
    (DualResult.S_drogue_m2 d < DualResult.S_main_m2 d <-> 0.2 < 0.5).
Proof.
  apply (compute_dual_drogue_smaller_iff 9.81 10 1.225 1.5 0.8 10 0.2); lra.
Defined.

(** X12. [compute_single] scales as the drag balance says: a mass [k] times
    as large needs [k] times the area and [sqrt k] times the diameter, and a
    descent rate [k] times as large needs the area divided by [k^2] and the
    diameter divided by [k]. *)
Theorem compute_single_scaling (g m rho Cd V k : R) :
  0 < g -> 0 < m -> 0 < rho -> 0 < Cd -> 0 < V -> 0 < k ->
  exists r rm rv : SingleResult.t,
    compute_single g m rho Cd V = Return r /\
    compute_single g (k * m) rho Cd V = Return rm /\
    compute_single g m rho Cd (k * V) = Return rv /\
    SingleResult.S_total_m2 rm = k * SingleResult.S_total_m2 r /\
    SingleResult.D_total_m rm = sqrt k * SingleResult.D_total_m r /\
    SingleResult.S_total_m2 rv = SingleResult.S_total_m2 r / k ^ 2 /\
    SingleResult.D_total_m rv = SingleResult.D_total_m r / k.
Proof.
  intros Hg Hm Hrho HCd HV Hk.
  assert (Hkm : 0 < k * m) by (apply Rmult_lt_0_compat; assumption).
  assert (HkV : 0 < k * V) by (apply Rmult_lt_0_compat; assumption).
  pose proof PI_RGT_0 as HPI.
  pose proof (area_pos g m rho Cd V Hg Hm Hrho HCd HV) as HS.
  do 3 eexists.
  split; [apply compute_single_returns; assumption |].
  split; [apply compute_single_returns; assumption |].
  split; [apply compute_single_returns; assumption |].
  cbn [SingleResult.S_total_m2 SingleResult.D_total_m].
  set (S := (2.0 * g * m) / (rho * Cd * V * V)) in *.
  assert (Em : (2.0 * g * (k * m)) / (rho * Cd * V * V) = k * S)
    by (unfold S; field; repeat split; lra).
  assert (Ev : (2.0 * g * m) / (rho * Cd * (k * V) * (k * V)) = S / k ^ 2)
    by (unfold S; field; repeat split; lra).
  rewrite Em, Ev.
  split; [reflexivity |].
  split.
  { replace (4.0 * (k * S) / PI) with (k * (4.0 * S / PI)) by (field; lra).
    apply sqrt_mult_alt. lra. }
  split; [reflexivity |].
  replace (4.0 * (S / k ^ 2) / PI) with (4.0 * S / PI / (k * k)) by (field; lra).
  rewrite sqrt_div_alt by nra.
  rewrite sqrt_square by lra. reflexivity.
Qed.

Lemma compute_single_scaling_witness :
  exists r rm rv : SingleResult.t,
    compute_single 9.81 10 1.225 1.2 10 = Return r /\
    compute_single 9.81 (2 * 10) 1.225 1.2 10 = Return rm /\
    compute_single 9.81 10 1.225 1.2 (2 * 10) = Return rv /\
    SingleResult.S_total_m2 rm = 2 * SingleResult.S_total_m2 r /\
    SingleResult.D_total_m rm = sqrt 2 * SingleResult.D_total_m r /\
    SingleResult.S_total_m2 rv = SingleResult.S_total_m2 r / 2 ^ 2 /\
    SingleResult.D_total_m rv = SingleResult.D_total_m r / 2.
Proof. apply (compute_single_scaling 9.81 10 1.225 1.2 10 2); lra. Defined.

(** X13. In exact arithmetic, for positive inputs, a faster target descent
    rate gives a strictly smaller area and a strictly smaller diameter. *)
Theorem compute_single_decreasing_in_V (g m rho Cd V1 V2 : R) :
  0 < g -> 0 < m -> 0 < rho -> 0 < Cd -> 0 < V1 -> V1 < V2 ->
  exists r1 r2 : SingleResult.t,
    compute_single g m rho Cd V1 = Return r1 /\
    compute_single g m rho Cd V2 = Return r2 /\
    SingleResult.S_total_m2 r2 < SingleResult.S_total_m2 r1 /\
    SingleResult.D_total_m r2 < SingleResult.D_total_m r1.
Proof.
  intros Hg Hm Hrho HCd HV1 HV.
  assert (HV2 : 0 < V2) by lra.
  pose proof PI_RGT_0 as HPI.
  pose proof (area_pos g m rho Cd V2 Hg Hm Hrho HCd HV2) as HS2.
  do 2 eexists.
  split; [apply compute_single_returns; assumption |].
  split; [apply compute_single_returns; assumption |].
  cbn [SingleResult.S_total_m2 SingleResult.D_total_m].
  assert (Hn : 0 < 2.0 * g * m).
  { apply Rmult_lt_0_compat; [apply Rmult_lt_0_compat; lra | exact Hm]. }
  assert (Hc : 0 < rho * Cd) by (apply Rmult_lt_0_compat; assumption).
  assert (Hd1 : 0 < rho * Cd * V1 * V1)
    by (repeat apply Rmult_lt_0_compat; assumption).
  assert (Hd : rho * Cd * V1 * V1 < rho * Cd * V2 * V2).
  { rewrite !Rmult_assoc. apply Rmult_lt_compat_l; [exact Hrho |].
    apply Rmult_lt_compat_l; [exact HCd |]. nra. }
  assert (HS : (2.0 * g * m) / (rho * Cd * V2 * V2) <
               (2.0 * g * m) / (rho * Cd * V1 * V1)).
  { unfold Rdiv. apply Rmult_lt_compat_l; [exact Hn |].
    apply Rinv_lt_contravar; [| exact Hd].
    apply Rmult_lt_0_compat; lra. }
  split; [exact HS |].
  apply sqrt_lt_1_alt. split.
  - left. apply Rdiv_lt_0_compat; lra.
  - unfold Rdiv. apply Rmult_lt_compat_r;
      [apply Rinv_0_lt_compat; exact HPI | lra].
Qed.

Lemma compute_single_decreasing_in_V_witness :
  exists r1 r2 : SingleResult.t,
    compute_single 9.81 10 1.225 1.2 5 = Return r1 /\
    compute_single 9.81 10 1.225 1.2 10 = Return r2 /\
    SingleResult.S_total_m2 r2 < SingleResult.S_total_m2 r1 /\
    SingleResult.D_total_m r2 < SingleResult.D_total_m r1.
Proof. apply (compute_single_decreasing_in_V 9.81 10 1.225 1.2 5 10); lra. Defined.

(** The imperial areas of a dual result add up like the metric ones:
    drogue plus main in square feet is the total in square feet. *)
Lemma compute_dual_ft2_split (g m rho Cd_drogue Cd_main V f : R) :
  0 < g -> 0 < m -> 0 < rho -> 0 < Cd_drogue -> 0 < Cd_main -> 0 < V ->
  0.01 <= f <= 0.9 ->
  exists d : DualResult.t,
    compute_dual g m rho Cd_drogue Cd_main V f = Return d /\
    DualResult.S_drogue_ft2 d + DualResult.S_main_ft2 d =
    DualResult.S_total_ft2 d.
Proof.
  intros Hg Hm Hrho Hd Hmn HV Hf.
  eexists. split; [apply compute_dual_returns; assumption |].
  unfold DualResult.S_drogue_ft2, DualResult.S_main_ft2, DualResult.S_total_ft2.
  cbn -[Rmult Rdiv Rplus Rminus IZR].
  unfold M2_TO_FT2. lra.
Qed.

Lemma compute_dual_ft2_split_witness :
  exists d : DualResult.t,
    compute_dual 9.81 10 1.225 1.5 0.8 10 0.2 = Return d /\
    DualResult.S_drogue_ft2 d + DualResult.S_main_ft2 d =
    DualResult.S_total_ft2 d.
Proof. apply (compute_dual_ft2_split 9.81 10 1.225 1.5 0.8 10 0.2); lra. Defined.

End Dependence.

(** ** The compute button *)

Section ComputeButton.

Import Py Gui.

Lemma populated_ok (safety : R) (rows : list row) :
  0 <= safety -> populated safety rows = Return rows.
Proof.
  intros H. unfold populated.
  assert (E : ltb safety 0 = false) by (apply ltb_false; exact H).
  now rewrite E.
Qed.

Lemma advisory_not_empty : advisory <> ""%string.
Proof. discriminate. Qed.

(** X14. With every widget value inside the range its spin box was built
    with, [_on_compute] shows no error dialog; it fills the table with one
    row in single mode and three rows otherwise, and it shows the advisory
    exactly when the descent rate is at least 15 m/s. *)
Theorem on_compute_within_spin_ranges (w : widgets) :
  in_spin_ranges w ->
  message_box (_on_compute w) = None /\
  length (table (_on_compute w)) =
    (if String.eqb (mode_combo w) "single" then 1 else 3)%nat /\
  (warn_label (_on_compute w) = advisory <-> 15 <= v_spin w).
Proof.
  intros (Hs & Hf & Hg & Hm & Hrho & Hcd & Hcdd & Hcdm & HV).
  unfold _on_compute.
  assert (Adv : forall rows,
             warn_label (Screen rows (if geb (v_spin w) 15.0 then advisory else "") None)
             = advisory <-> 15 <= v_spin w).
  { intros rows. cbn [warn_label]. unfold geb.
    destruct (leb 15.0 (v_spin w)) eqn:E.
    - apply leb_true in E. split; [intros _; lra | reflexivity].
    - apply leb_false in E. split; [intros H; symmetry in H;
        now apply advisory_not_empty in H | lra]. }
  destruct (String.eqb (mode_combo w) "single"); cbv beta iota zeta.
  - rewrite compute_single_returns by lra. cbv beta iota.
    rewrite populated_ok by lra.
    repeat split; try reflexivity; apply Adv.
  - rewrite compute_dual_returns by lra. cbv beta iota zeta.
    rewrite populated_ok by lra.
    repeat split; try reflexivity; apply Adv.
Qed.

Lemma on_compute_within_spin_ranges_witness :
  let w := Widgets "dual" 1.10 FootRounding.NONE 0.20
                   9.81 10.0 1.225 1.20 1.20 1.20 10.0 in
  message_box (_on_compute w) = None /\
  length (table (_on_compute w)) =
    (if String.eqb (mode_combo w) "single" then 1 else 3)%nat /\
  (warn_label (_on_compute w) = advisory <-> 15 <= v_spin w).
Proof.
  apply (on_compute_within_spin_ranges
           (Widgets "dual" 1.10 FootRounding.NONE 0.20
                    9.81 10.0 1.225 1.20 1.20 1.20 10.0)).
  unfold in_spin_ranges. cbn. repeat split; lra.
Defined.

End ComputeButton.

(** ** The script against the engine *)

Section ScriptRounding.

Import Py.

(** Rounding a non-negative number to decimals gives a non-negative number. *)
Lemma round_to_nonneg (x : R) (n : nat) : 0 <= x -> 0 <= round_to x n.
Proof.
  intros Hx. unfold round_to.
  assert (Hp : 0 < 10 ^ n) by (apply pow_lt; lra).
  apply Rmult_le_pos; [| left; apply Rinv_0_lt_compat; exact Hp].
  apply IZR_le. rewrite <- (round_IZR 0). apply round_le.
  apply Rmult_le_pos; lra.
Qed.

Lemma Rabs_le_between (x b : R) : Rabs x <= b -> - b <= x <= b.
Proof. unfold Rabs. destruct (Rcase_abs x); lra. Qed.

(** Square roots are no further apart than the root of the distance. *)
Lemma sqrt_distance (a b : R) :
  0 <= a -> 0 <= b -> Rabs (sqrt a - sqrt b) <= sqrt (Rabs (a - b)).
Proof.
  assert (Half : forall x y, 0 <= y -> y <= x -> sqrt x - sqrt y <= sqrt (x - y)).
  { intros x y Hy Hyx.
    assert (Hx : 0 <= x) by lra.
    assert (Hd : 0 <= x - y) by lra.
    pose proof (sqrt_pos x) as Px. pose proof (sqrt_pos y) as Py.
    pose proof (sqrt_pos (x - y)) as Pd.
    pose proof (sqrt_def x Hx) as Qx. pose proof (sqrt_def y Hy) as Qy.
    pose proof (sqrt_def (x - y) Hd) as Qd.
    destruct (Rle_lt_dec (sqrt x) (sqrt y + sqrt (x - y))) as [H | H]; [lra |].
    exfalso.
    assert (Hprod : 0 <= sqrt y * sqrt (x - y)) by (apply Rmult_le_pos; assumption).
    assert (Hsq : (sqrt y + sqrt (x - y)) * (sqrt y + sqrt (x - y)) <
                  sqrt x * sqrt x).
    { apply Rmult_le_0_lt_compat; lra. }
    nra. }
  intros Ha Hb.
  destruct (Rle_lt_dec b a) as [H | H].
  - rewrite (Rabs_pos_eq (a - b)) by lra.
    rewrite Rabs_pos_eq; [apply Half; assumption |].
    pose proof (sqrt_le_1_alt b a H). lra.
  - rewrite (Rabs_left (a - b)) by lra.
    rewrite Rabs_left.
    + replace (- (a - b)) with (b - a) by ring.
      replace (- (sqrt a - sqrt b)) with (sqrt b - sqrt a) by ring.
      apply Half; lra.
    + pose proof (sqrt_lt_1_alt a b (conj Ha H)). lra.
Qed.

(** X17. For positive inputs the single branch of the script agrees with
    [compute_single] up to its roundings: its area is within 0.0005 m^2 and
    its diameter within 0.08 m of the engine's. *)
Theorem script_single_close_to_engine (safety_factor g m rho Cd V : R) :
  0 < g -> 0 < m -> 0 < rho -> 0 < Cd -> 0 < V ->
  exists res : Gui.SingleResult.t,
    Gui.compute_single g m rho Cd V = Return res /\
    Rabs (Cli.S_total (Cli.single safety_factor g m rho Cd V) -
          Gui.SingleResult.S_total_m2 res) <= 0.0005 /\
    Rabs (Cli.D_total (Cli.single safety_factor g m rho Cd V) -
          Gui.SingleResult.D_total_m res) <= 0.08.
Proof.
  intros Hg Hm Hrho HCd HV.
  pose proof (area_pos g m rho Cd V Hg Hm Hrho HCd HV) as HS.
  eexists. split; [apply compute_single_returns; assumption |].
  cbn [Gui.SingleResult.S_total_m2 Gui.SingleResult.D_total_m].
  unfold Cli.single. cbv zeta. cbn [Cli.S_total Cli.D_total].
  set (S := (2.0 * g * m) / (rho * Cd * V * V)) in *.
  pose proof (round_to_error S 3) as ES.
  pose proof (round_to_nonneg S 3 (Rlt_le _ _ HS)) as NS.
  set (Sr := round_to S 3) in *.
  assert (ES' : Rabs (Sr - S) <= 0.0005) by (simpl pow in ES; lra).
  split; [exact ES' |].
  pose proof (round_to_error (sqrt (Sr * 4 / PI)) 1) as ED.
  set (Dr := round_to (sqrt (Sr * 4 / PI)) 1) in *.
  destruct PI_bounds as [Plo Phi].
  assert (HPI : 0 < PI) by lra.
  assert (A1 : 0 <= Sr * 4 / PI).
  { apply Rmult_le_pos; [lra | left; apply Rinv_0_lt_compat; exact HPI]. }
  assert (A2 : 0 <= 4.0 * S / PI).
  { apply Rmult_le_pos; [lra | left; apply Rinv_0_lt_compat; exact HPI]. }
  pose proof (sqrt_distance _ _ A1 A2) as SD.
  assert (Gap : Rabs (Sr * 4 / PI - 4.0 * S / PI) <= 0.026 * 0.026).
  { replace (Sr * 4 / PI - 4.0 * S / PI) with ((Sr - S) * (4 / PI))
      by (replace 4.0 with 4 by lra; field; lra).
    rewrite Rabs_mult.
    assert (Q : 0 < 4 / PI < 4 / 3.14).
    { split; [apply Rdiv_lt_0_compat; lra |].
      unfold Rdiv. apply Rmult_lt_compat_l; [lra |].
      apply Rinv_lt_contravar; [nra | lra]. }
    rewrite (Rabs_pos_eq (4 / PI)) by lra.
    pose proof (Rabs_pos (Sr - S)) as P.
    apply Rle_trans with (0.0005 * (4 / PI)).
    - apply Rmult_le_compat_r; lra.
    - lra. }
  assert (Root : sqrt (Rabs (Sr * 4 / PI - 4.0 * S / PI)) <= 0.026).
  { replace 0.026 with (sqrt (0.026 * 0.026)) by (apply sqrt_square; lra).
    apply sqrt_le_1_alt. lra. }
  simpl pow in ED.
  apply Rabs_le.
  apply Rabs_le_between in ED. apply Rabs_le_between in SD.
  lra.
Qed.

Lemma script_single_close_to_engine_witness :
  exists res : Gui.SingleResult.t,
    Gui.compute_single 9.81 10 1.225 1.2 10 = Return res /\
    Rabs (Cli.S_total (Cli.single 1.1 9.81 10 1.225 1.2 10) -
          Gui.SingleResult.S_total_m2 res) <= 0.0005 /\
    Rabs (Cli.D_total (Cli.single 1.1 9.81 10 1.225 1.2 10) -
          Gui.SingleResult.D_total_m res) <= 0.08.
Proof. apply (script_single_close_to_engine 1.1 9.81 10 1.225 1.2 10); lra. Defined.

(** One fifth and four fifths of an integer, each rounded, add up to it. *)
Lemma round_fifths (k : Z) : (round (IZR k * 0.2) + round (IZR k * 0.8) = k)%Z.
Proof.
  pose proof (Z.div_mod k 5 ltac:(lia)) as E.
  pose proof (Z.mod_pos_bound k 5 ltac:(lia)) as B.
  set (q := (k / 5)%Z) in *. set (r := (k mod 5)%Z) in *.
  assert (HR : IZR k = 5 * IZR q + IZR r).
  { rewrite E at 1. rewrite plus_IZR, mult_IZR. reflexivity. }
  assert (Hr : (r = 0 \/ r = 1 \/ r = 2 \/ r = 3 \/ r = 4)%Z) by lia.
  destruct Hr as [Hr | [Hr | [Hr | [Hr | Hr]]]]; rewrite Hr in HR, E.
  - rewrite (round_near q) by lra.
    rewrite (round_near (4 * q)) by (rewrite mult_IZR; lra). lia.
  - rewrite (round_near q) by lra.
    rewrite (round_near (4 * q + 1)) by (rewrite plus_IZR, mult_IZR; lra). lia.
  - rewrite (round_near q) by lra.
    rewrite (round_near (4 * q + 2)) by (rewrite plus_IZR, mult_IZR; lra). lia.
  - rewrite (round_near (q + 1)) by (rewrite plus_IZR; lra).
    rewrite (round_near (4 * q + 2)) by (rewrite plus_IZR, mult_IZR; lra). lia.
  - rewrite (round_near (q + 1)) by (rewrite plus_IZR; lra).
    rewrite (round_near (4 * q + 3)) by (rewrite plus_IZR, mult_IZR; lra). lia.
Qed.

(** The same for a number with [n] decimals. *)
Lemma round_to_fifths (k : Z) (n : nat) :
  round_to (IZR k / 10 ^ n * 0.2) n + round_to (IZR k / 10 ^ n * 0.8) n =
  IZR k / 10 ^ n.
Proof.
  assert (Hp : 0 < 10 ^ n) by (apply pow_lt; lra).
  unfold round_to.
  replace (IZR k / 10 ^ n * 0.2 * 10 ^ n) with (IZR k * 0.2) by (field; lra).
  replace (IZR k / 10 ^ n * 0.8 * 10 ^ n) with (IZR k * 0.8) by (field; lra).
  rewrite <- (round_fifths k) at 3. rewrite plus_IZR. field. lra.
Qed.

(** X18. In the dual branch of the script the rounded parts add up without
    rounding residue: the drogue and main areas sum to the total area, and,
    because the diameters are split by the same 0.2 and 0.8, the drogue and
    main diameters sum to the total diameter. *)
Theorem script_dual_parts_add_up (safety_factor g m rho Cd_drogue Cd_main V : R) :
  0 < g -> 0 < m -> 0 < rho -> 0 < Cd_drogue -> 0 < Cd_main -> 0 < V ->
  let r := Cli.dual safety_factor g m rho Cd_drogue Cd_main V in
  Cli.S_drogue r + Cli.S_main r = Cli.dual_S_total r /\
  Cli.D_drogue r + Cli.D_main r = Cli.dual_D_total r.
Proof.
  intros _ _ _ _ _ _. cbv zeta. unfold Cli.dual. cbv zeta.
  cbn [Cli.S_drogue Cli.S_main Cli.dual_S_total
       Cli.D_drogue Cli.D_main Cli.dual_D_total].
  split.
  - unfold round_to at 2 4 5. apply round_to_fifths.
  - set (S := round_to _ 3).
    unfold round_to at 2 4 5. apply round_to_fifths.
Qed.

Lemma script_dual_parts_add_up_witness :
  let r := Cli.dual 1.1 9.81 10 1.225 1.5 0.8 10 in
  Cli.S_drogue r + Cli.S_main r = Cli.dual_S_total r /\
  Cli.D_drogue r + Cli.D_main r = Cli.dual_D_total r.
Proof. apply (script_dual_parts_add_up 1.1 9.81 10 1.225 1.5 0.8 10); lra. Defined.

End ScriptRounding.

(** ** Further relations between the results *)

Section Relations.

Import Py Gui.

(** The area falls when the drag coefficient grows. *)
Lemma area_decreasing_in_Cd (g m rho Cd1 Cd2 V : R) :
  0 < g -> 0 < m -> 0 < rho -> 0 < Cd1 -> Cd1 <= Cd2 -> 0 < V ->
  (2.0 * g * m) / (rho * Cd2 * V * V) <= (2.0 * g * m) / (rho * Cd1 * V * V).
Proof.
  intros Hg Hm Hrho H1 H12 HV.
  assert (Hn : 0 < 2.0 * g * m).
  { apply Rmult_lt_0_compat; [apply Rmult_lt_0_compat; lra | exact Hm]. }
  assert (HVV : 0 < V * V) by (apply Rmult_lt_0_compat; assumption).
  assert (Hd1 : 0 < rho * Cd1 * V * V)
    by (repeat apply Rmult_lt_0_compat; assumption).
  assert (Hd : rho * Cd1 * V * V <= rho * Cd2 * V * V).
  { rewrite !Rmult_assoc. apply Rmult_le_compat_l; [lra |].
    apply Rmult_le_compat_r; lra. }
  unfold Rdiv. apply Rmult_le_compat_l; [lra |].
  apply Rinv_le_contravar; assumption.
Qed.

(** X19. In exact arithmetic, the total of [compute_dual] is the result of
    [compute_single] for the mean of the two drag coefficients, and its area
    lies between the single-canopy areas for the larger and for the smaller
    coefficient. *)
Theorem compute_dual_total_between_singles (g m rho Cd_lo Cd_hi V f : R) :
  0 < g -> 0 < m -> 0 < rho -> 0 < Cd_lo -> Cd_lo <= Cd_hi -> 0 < V ->
  0.01 <= f <= 0.9 ->
  exists (d : DualResult.t) (s s_lo s_hi : SingleResult.t),
    compute_dual g m rho Cd_lo Cd_hi V f = Return d /\
    compute_single g m rho (0.5 * (Cd_lo + Cd_hi)) V = Return s /\
    compute_single g m rho Cd_lo V = Return s_lo /\
    compute_single g m rho Cd_hi V = Return s_hi /\
    DualResult.S_total_m2 d = SingleResult.S_total_m2 s /\
    DualResult.D_total_m d = SingleResult.D_total_m s /\
    SingleResult.S_total_m2 s_hi <= DualResult.S_total_m2 d
      <= SingleResult.S_total_m2 s_lo.
Proof.
  intros Hg Hm Hrho Hlo Hle HV Hf.
  assert (Hhi : 0 < Cd_hi) by lra.
  assert (Havg : 0 < 0.5 * (Cd_lo + Cd_hi)) by lra.
  do 4 eexists.
  split; [apply compute_dual_returns; assumption |].
  split; [apply compute_single_returns; assumption |].
  split; [apply compute_single_returns; assumption |].
  split; [apply compute_single_returns; assumption |].
  cbn -[Rmult Rdiv Rplus Rminus IZR sqrt PI].
  split; [reflexivity |]. split; [reflexivity |].
  split; apply area_decreasing_in_Cd; try assumption; lra.
Qed.

Lemma compute_dual_total_between_singles_witness :
  exists (d : DualResult.t) (s s_lo s_hi : SingleResult.t),
    compute_dual 9.81 10 1.225 0.8 1.5 10 0.2 = Return d /\
    compute_single 9.81 10 1.225 (0.5 * (0.8 + 1.5)) 10 = Return s /\
    compute_single 9.81 10 1.225 0.8 10 = Return s_lo /\
    compute_single 9.81 10 1.225 1.5 10 = Return s_hi /\
    DualResult.S_total_m2 d = SingleResult.S_total_m2 s /\
    DualResult.D_total_m d = SingleResult.D_total_m s /\
    SingleResult.S_total_m2 s_hi <= DualResult.S_total_m2 d
      <= SingleResult.S_total_m2 s_lo.
Proof.
  apply (compute_dual_total_between_singles 9.81 10 1.225 0.8 1.5 10 0.2); lra.
Defined.

(** X20. The policy "Nearest whole ft" sends a diameter half way between
    two whole feet to the even one of them: 2.5 ft becomes 2 ft and 3.5 ft
    becomes 4 ft. *)
Theorem round_feet_nearest_half_to_even (z : Z) :
  round_feet (IZR z + 1 / 2) FootRounding.NEAREST =
  IZR (if Z.even z then z else z + 1).
Proof.
  unfold round_feet, float.
  change (String.eqb FootRounding.NEAREST FootRounding.NEAREST) with true.
  cbv iota. f_equal. unfold round.
  rewrite (Zfloor_eq z) by lra.
  destruct (Rlt_dec (IZR z + 1 / 2 - IZR z) (1 / 2)); [lra |].
  destruct (Rlt_dec (1 / 2) (IZR z + 1 / 2 - IZR z)); [lra |].
  reflexivity.
Qed.

(** X21. The inch and foot figures of a result do not agree to the last
    digit: in exact arithmetic, for positive inputs the diameter in inches
    is more than twelve times the diameter in feet, by less than one part in
    10 000. *)
Theorem inches_exceed_twelve_feet (g m rho Cd V : R) :
  0 < g -> 0 < m -> 0 < rho -> 0 < Cd -> 0 < V ->
  exists res : SingleResult.t,
    compute_single g m rho Cd V = Return res /\
    12 * SingleResult.D_total_ft res < SingleResult.D_total_in res /\
    SingleResult.D_total_in res < 12.0001 * SingleResult.D_total_ft res.
Proof.
  intros Hg Hm Hrho HCd HV.
  pose proof (area_pos g m rho Cd V Hg Hm Hrho HCd HV) as HS.
  pose proof (diameter_pos _ HS) as HD.
  eexists. split; [apply compute_single_returns; assumption |].
  unfold SingleResult.D_total_ft, SingleResult.D_total_in.
  cbn [SingleResult.D_total_m].
  set (D := sqrt _) in *.
  unfold M_TO_FT, M_TO_IN. split; nra.
Qed.

Lemma inches_exceed_twelve_feet_witness :
  exists res : SingleResult.t,
    compute_single 9.81 10 1.225 1.2 10 = Return res /\
    12 * SingleResult.D_total_ft res < SingleResult.D_total_in res /\
    SingleResult.D_total_in res < 12.0001 * SingleResult.D_total_ft res.
Proof. apply (inches_exceed_twelve_feet 9.81 10 1.225 1.2 10); lra. Defined.

End Relations.

(** ** The engine at the edges of binary64 *)

Section Binary64Edges.

Import PrimFloat.
#[local] Set Warnings "-inexact-float".
Local Open Scope float_scope.





End Binary64Edges.
